(** * DDPG agent (algorithms/ddpg/agent.py): a shallow embedding

    The agent of [algorithms/ddpg/agent.py] is embedded as a state-and-error
    monad over a [World] made of the agent object and of its host (the
    environment, the random source, the console and the disk).

    Tensors hold exact rationals: float rounding, NaN and infinities are
    outside this model.  A batch of rows is a list of rows, and a column
    tensor of shape (batch, 1) is kept as one scalar per sample. *)

From Stdlib Require Import String List ZArith QArith Qround Qminmax Bool Lia.
Import ListNotations.

Local Open Scope Z_scope.

(** ** Tensors *)

Definition tensor := list Q.

Fixpoint zip_with {A B C : Type} (f : A -> B -> C) (xs : list A) (ys : list B)
  : list C :=
  match xs, ys with
  | x :: xs', y :: ys' => f x y :: zip_with f xs' ys'
  | _, _ => []
  end.

Definition Qsum (xs : list Q) : Q := fold_right Qplus 0%Q xs.

(** [Tensor.mean()] *)
Definition mean (xs : list Q) : Q := (Qsum xs / inject_Z (Z.of_nat (length xs)))%Q.

(** [F.mse_loss(input, target)] with the default mean reduction. *)
Definition mse_loss (input target : list Q) : Q :=
  mean (zip_with (fun v t => ((v - t) * (v - t))%Q) input target).

(** [np.clip(x, lo, hi)] on one component. *)
Definition clip1 (lo hi x : Q) : Q := Qmin hi (Qmax lo x).

(** [torch.cat((xs, ys), dim=-1)] on a batch of rows. *)
Definition cat (xs ys : list tensor) : list tensor := zip_with (@app Q) xs ys.

(** The single output of a network with [output_size=1], for every row. *)
Definition column (rows : list tensor) : list Q := map (fun r => hd 0%Q r) rows.

(** ** Collaborators

    The environment, the numerical back end and the sources of randomness
    are not part of the agent: they are interfaces. *)

(** [gym.Env] *)
Class Gym := {
  env_state : Type;
  observation_space_shape0 : env_state -> Z;
  action_space_shape0 : env_state -> Z;
  env_reset : env_state -> tensor * env_state;
  env_step : env_state -> tensor -> (tensor * Q * bool) * env_state;
  action_space_sample : env_state -> tensor * env_state
}.

(** The random generator and the wall clock: one stream of values. *)
Class Oracle := {
  oracle : Type;
  draw : oracle -> Q * oracle
}.

(** [torch]: the layers of a network up to its output activation, [tanh],
    automatic differentiation of a loss in the weights, gradient clipping and
    the Adam optimizer. *)
Class Torch := {
  mlp_layers : Z -> list Z -> Z -> list Q -> tensor -> tensor;
  tanh : Q -> Q;
  grad : (list Q -> Q) -> list Q -> list Q;
  clip_grad_norm_ : list Q -> Q -> list Q;
  Adam : Type;
  Adam_new : Q -> Q -> Adam;
  Adam_step : Adam -> list Q -> list Q -> list Q * Adam
}.

(** ** Data model *)

(** (state, action, reward, next_state, done) *)
Record Transition := {
  t_state : tensor;
  t_action : tensor;
  t_reward : Q;
  t_next_state : tensor;
  t_done : bool
}.

(** [argparse.Namespace]: the fields the agent reads. *)
Record Namespace := {
  test : bool;
  load_from : option string;
  max_episode_steps : Z;
  episode_num : Z;
  render : bool;
  render_after : Z;
  log : bool;
  save_period : Z
}.

(** [params], the hyper-parameters. *)
Record HyperParams := {
  p_gamma : Q;
  p_tau : Q;
  p_buffer_size : Z;
  p_batch_size : Z;
  p_initial_random_action : Z;
  p_multiple_learn : Z;
  p_gradient_clip_ac : Q;
  p_gradient_clip_cr : Q
}.

Record NetworkCfg := {
  hidden_sizes_actor : list Z;
  hidden_sizes_critic : list Z
}.

Record OptimCfg := {
  lr_actor : Q;
  lr_critic : Q;
  weight_decay : Q
}.

Record NoiseCfg := {
  ou_noise_theta : Q;
  ou_noise_sigma : Q
}.

Inductive activation := Identity | Tanh.

(** The four networks and, by the network they train, the two optimizers. *)
Inductive net := Actor | ActorTarget | Critic | CriticTarget.

(** Effects on collaborators, in the order the agent performs them.
    [EvTruncationCheck] marks the evaluation of the conditional expression of
    [step] with the value [episode_step] had there. *)
Inductive event :=
| EvNewMLP (n : net)
| EvNewAdam (n : net)
| EvNewReplayBuffer
| EvEnvReset
| EvEnvStep
| EvEnvRender
| EvEnvClose
| EvActionSpaceSample
| EvNoiseSample
| EvTruncationCheck (at_episode_step cap : Z) (done done_bool : bool)
| EvMemoryAdd (done_bool : bool)
| EvMemorySample (len batch : Z)
| EvOptimStep (n : net) (max_norm : Q)
| EvSoftUpdate (target : net)
| EvSetWandb
| EvSaveParams (n_episode : Z)
| EvInterimTest.

(** What the agent writes to the console and to the metric logger. *)
Inductive output :=
| Print (line : string)
| PrintLog (i at_episode_step at_total_step : Z)
           (score total_loss actor_loss critic_loss avg_time_cost : Q)
| WandbLog (score total_loss actor_loss critic_loss avg_time_cost : Q).

Inductive exn :=
| AttributeError (attr : string)
| KeyError (key : string)
| RuntimeError (what : string)
| ZeroDivisionError
| ContractViolation.

(** ** The monad: state, exceptions, a bound on loop iterations, and the
    effects performed. *)

Inductive outcome (A : Type) :=
| Ok (a : A)
| Raise (e : exn)
| OutOfFuel.
Arguments Ok {A} a.
Arguments Raise {A} e.
Arguments OutOfFuel {A}.

Definition M (S A : Type) : Type := S -> outcome A * S * list event.

Definition ret {S A : Type} (a : A) : M S A := fun s => (Ok a, s, []).

Definition bind {S A B : Type} (m : M S A) (k : A -> M S B) : M S B :=
  fun s =>
    match m s with
    | (Ok a, s1, t1) =>
        match k a s1 with
        | (r, s2, t2) => (r, s2, t1 ++ t2)
        end
    | (Raise e, s1, t1) => (Raise e, s1, t1)
    | (OutOfFuel, s1, t1) => (OutOfFuel, s1, t1)
    end.

Definition raise {S A : Type} (e : exn) : M S A := fun s => (Raise e, s, []).
Definition out_of_fuel {S A : Type} : M S A := fun s => (OutOfFuel, s, []).
Definition emit {S : Type} (e : event) : M S unit := fun s => (Ok tt, s, [e]).
Definition get {S : Type} : M S S := fun s => (Ok s, s, []).
Definition modify {S : Type} (f : S -> S) : M S unit := fun s => (Ok tt, f s, []).

Declare Scope monad_scope.
Delimit Scope monad_scope with monad.
Notation "x <- m ;; k" := (bind m (fun x => k))
  (at level 61, m at next level, right associativity) : monad_scope.
Notation "m ;; k" := (bind m (fun _ => k))
  (at level 61, right associativity) : monad_scope.
Notation "' p <- m ;; k" := (bind m (fun x => match x with p => k end))
  (at level 61, p pattern, m at next level, right associativity) : monad_scope.
Local Open Scope monad_scope.

Definition result_of {S A : Type} (r : outcome A * S * list event) : outcome A :=
  fst (fst r).
Definition state_of {S A : Type} (r : outcome A * S * list event) : S :=
  snd (fst r).
Definition trace_of {S A : Type} (r : outcome A * S * list event) : list event :=
  snd r.

(** [for x in xs: body x] *)
Fixpoint for_each {S A : Type} (xs : list A) (body : A -> M S unit) : M S unit :=
  match xs with
  | [] => ret tt
  | x :: xs' => body x ;; for_each xs' body
  end.

(** [range(lo, hi)] *)
Definition range (lo hi : Z) : list Z :=
  map (fun i => lo + Z.of_nat i) (seq 0 (Z.to_nat (hi - lo))).

Section DDPG.

Context {gym : Gym} {rnd : Oracle} {torch : Torch}.

(** [n] successive values of the random source. *)
Fixpoint draws (n : nat) (o : oracle) : list Q * oracle :=
  match n with
  | O => ([], o)
  | S n' =>
      let (q, o1) := draw o in
      let (qs, o2) := draws n' o1 in
      (q :: qs, o2)
  end.

(** ** Networks *)

(** Modelled from the spec: [algorithms/common/networks/mlp.py] is not part
    of the sources.  A network is a parametrized function with a flat list
    of weights; the actor is built with [output_activation=torch.tanh] and
    maps a state to an action bounded componentwise to [-1,1], the critic has
    one linear output.  The hidden layers are those of [mlp_layers]. *)
Record MLP := {
  input_size : Z;
  output_size : Z;
  hidden_sizes : list Z;
  output_activation : activation;
  weights : list Q
}.

(** Weights and biases of the linear layers between consecutive sizes. *)
Fixpoint n_params (sizes : list Z) : nat :=
  match sizes with
  | a :: ((b :: _) as rest) => Z.to_nat (a * b + b) + n_params rest
  | _ => O
  end.

Definition apply_activation (f : activation) (x : Q) : Q :=
  match f with
  | Identity => x
  | Tanh => tanh x
  end.

(** The forward pass on one row. *)
Definition forward (m : MLP) (x : tensor) : tensor :=
  map (apply_activation (output_activation m))
      (mlp_layers (input_size m) (hidden_sizes m) (output_size m) (weights m) x).

(** The forward pass on a batch. *)
Definition forward_batch (m : MLP) (xs : list tensor) : list tensor :=
  map (forward m) xs.

Definition with_weights (m : MLP) (ws : list Q) : MLP :=
  {| input_size := input_size m; output_size := output_size m;
     hidden_sizes := hidden_sizes m; output_activation := output_activation m;
     weights := ws |}.

(** [module.state_dict()] *)
Definition state_dict (m : MLP) : list Q := weights m.

(** [module.load_state_dict(sd)]: the shapes must agree. *)
Definition load_state_dict {S : Type} (m : MLP) (sd : list Q) : M S MLP :=
  if Nat.eqb (length sd) (length (weights m))
  then ret (with_weights m sd)
  else raise (RuntimeError "size mismatch").

(** Modelled from the spec: [soft_update] of
    [algorithms/common/helper_functions.py] is not part of the sources.  For
    every parameter pair, target <- tau * live + (1 - tau) * target. *)
Definition soft_update (local target : MLP) (tau : Q) : MLP :=
  with_weights target
    (zip_with (fun l t => (tau * l + (1 - tau) * t)%Q) (weights local) (weights target)).

(** ** Exploration noise *)

(** Modelled from the spec: [algorithms/common/noise.py] is not part of the
    sources.  One state component per action dimension; each call updates
    x <- x + theta * (-x) + sigma * N and returns the updated x. *)
Record OUNoise := {
  ou_theta : Q;
  ou_sigma : Q;
  ou_x : tensor
}.

Definition OUNoise_new (size : Z) (theta sigma : Q) : OUNoise :=
  {| ou_theta := theta; ou_sigma := sigma; ou_x := repeat 0%Q (Z.to_nat size) |}.

Definition OUNoise_sample (n : OUNoise) (o : oracle) : tensor * OUNoise * oracle :=
  let (normal, o') := draws (length (ou_x n)) o in
  let x' := zip_with (fun x g => (x + ou_theta n * (- x) + ou_sigma n * g)%Q)
                     (ou_x n) normal in
  (x', {| ou_theta := ou_theta n; ou_sigma := ou_sigma n; ou_x := x' |}, o').

(** ** Experience buffer *)

(** Modelled from the spec: [algorithms/common/buffer/replay_buffer.py] is
    not part of the sources.  An ordered ring of transitions of capacity
    [buffer_size], FIFO overwrite once full; [sample] draws [batch_size]
    transitions uniformly and requires length >= batch_size. *)
Record ReplayBuffer := {
  buffer : list Transition;
  rb_buffer_size : Z;
  rb_batch_size : Z
}.

Record Experiences := {
  e_states : list tensor;
  e_actions : list tensor;
  e_rewards : list Q;
  e_next_states : list tensor;
  e_dones : list Q
}.

Definition ReplayBuffer_new (buffer_size batch_size : Z) : ReplayBuffer :=
  {| buffer := []; rb_buffer_size := buffer_size; rb_batch_size := batch_size |}.

(** [len(memory)] *)
Definition ReplayBuffer_len (m : ReplayBuffer) : Z := Z.of_nat (length (buffer m)).

Definition ReplayBuffer_add (t : Transition) (m : ReplayBuffer) : ReplayBuffer :=
  let b := buffer m ++ [t] in
  {| buffer := skipn (length b - Z.to_nat (rb_buffer_size m)) b;
     rb_buffer_size := rb_buffer_size m;
     rb_batch_size := rb_batch_size m |}.

Definition index_of (q : Q) (len : nat) : nat :=
  Z.to_nat (Qfloor q mod Z.of_nat len).

Definition no_transition : Transition :=
  {| t_state := []; t_action := []; t_reward := 0%Q; t_next_state := [];
     t_done := false |}.

(** The stored flag as the float the batch carries. *)
Definition float_of_bool (b : bool) : Q := if b then 1%Q else 0%Q.

Definition stack (ts : list Transition) : Experiences :=
  {| e_states := map t_state ts;
     e_actions := map t_action ts;
     e_rewards := map t_reward ts;
     e_next_states := map t_next_state ts;
     e_dones := map (fun t => float_of_bool (t_done t)) ts |}.

(** The transitions one call of [sample] draws. *)
Definition sampled (m : ReplayBuffer) (o : oracle) : list Transition * oracle :=
  let (qs, o') := draws (Z.to_nat (rb_batch_size m)) o in
  (map (fun q => nth (index_of q (length (buffer m))) (buffer m) no_transition) qs, o').

Definition ReplayBuffer_sample (m : ReplayBuffer) (o : oracle)
  : option (Experiences * oracle) :=
  if rb_batch_size m <=? ReplayBuffer_len m
  then let (ts, o') := sampled m o in Some (stack ts, o')
  else None.

(** ** Checkpoints and the host *)

Inductive blob :=
| StateDict (ws : list Q)
| OptimState (opt : Adam).

(** The dict [torch.save] writes and [torch.load] reads. *)
Definition checkpoint := list (string * blob).

Record Host := {
  env : env_state;
  rng : oracle;
  stdout : list output;
  disk : list (string * checkpoint)
}.

Definition set_env (v : env_state) (h : Host) : Host :=
  {| env := v; rng := rng h; stdout := stdout h; disk := disk h |}.
Definition set_rng (v : oracle) (h : Host) : Host :=
  {| env := env h; rng := v; stdout := stdout h; disk := disk h |}.
Definition set_stdout (v : list output) (h : Host) : Host :=
  {| env := env h; rng := rng h; stdout := v; disk := disk h |}.
Definition set_disk (v : list (string * checkpoint)) (h : Host) : Host :=
  {| env := env h; rng := rng h; stdout := stdout h; disk := v |}.

Fixpoint lookup {V : Type} (k : string) (kvs : list (string * V)) : option V :=
  match kvs with
  | [] => None
  | (k', v) :: rest => if String.eqb k k' then Some v else lookup k rest
  end.

(** [os.path.exists(path)] *)
Definition os_path_exists (path : string) (h : Host) : bool :=
  match lookup path (disk h) with Some _ => true | None => false end.

(** ** The agent object *)

Record DDPGAgent := {
  args : Namespace;
  curr_state : tensor;
  total_step : Z;
  episode_step : Z;
  i_episode : Z;
  params : HyperParams;
  network_cfg : NetworkCfg;
  optim_cfg : OptimCfg;
  state_dim : Z;
  action_dim : Z;
  noise : OUNoise;
  actor : MLP;
  actor_target : MLP;
  critic : MLP;
  critic_target : MLP;
  actor_optim : Adam;
  critic_optim : Adam;
  memory : option ReplayBuffer
}.

Definition gamma (self : DDPGAgent) : Q := p_gamma (params self).
Definition tau (self : DDPGAgent) : Q := p_tau (params self).
Definition buffer_size (self : DDPGAgent) : Z := p_buffer_size (params self).
Definition batch_size (self : DDPGAgent) : Z := p_batch_size (params self).
Definition initial_random_action (self : DDPGAgent) : Z :=
  p_initial_random_action (params self).
Definition multiple_learn (self : DDPGAgent) : Z := p_multiple_learn (params self).
Definition gradient_clip_ac (self : DDPGAgent) : Q := p_gradient_clip_ac (params self).
Definition gradient_clip_cr (self : DDPGAgent) : Q := p_gradient_clip_cr (params self).

Definition set_curr_state (v : tensor) (self : DDPGAgent) : DDPGAgent :=
  Build_DDPGAgent (args self) v (total_step self) (episode_step self)
    (i_episode self) (params self) (network_cfg self) (optim_cfg self)
    (state_dim self) (action_dim self) (noise self) (actor self)
    (actor_target self) (critic self) (critic_target self) (actor_optim self)
    (critic_optim self) (memory self).

Definition set_total_step (v : Z) (self : DDPGAgent) : DDPGAgent :=
  Build_DDPGAgent (args self) (curr_state self) v (episode_step self)
    (i_episode self) (params self) (network_cfg self) (optim_cfg self)
    (state_dim self) (action_dim self) (noise self) (actor self)
    (actor_target self) (critic self) (critic_target self) (actor_optim self)
    (critic_optim self) (memory self).

Definition set_episode_step (v : Z) (self : DDPGAgent) : DDPGAgent :=
  Build_DDPGAgent (args self) (curr_state self) (total_step self) v
    (i_episode self) (params self) (network_cfg self) (optim_cfg self)
    (state_dim self) (action_dim self) (noise self) (actor self)
    (actor_target self) (critic self) (critic_target self) (actor_optim self)
    (critic_optim self) (memory self).

Definition set_i_episode (v : Z) (self : DDPGAgent) : DDPGAgent :=
  Build_DDPGAgent (args self) (curr_state self) (total_step self)
    (episode_step self) v (params self) (network_cfg self) (optim_cfg self)
    (state_dim self) (action_dim self) (noise self) (actor self)
    (actor_target self) (critic self) (critic_target self) (actor_optim self)
    (critic_optim self) (memory self).

Definition set_noise (v : OUNoise) (self : DDPGAgent) : DDPGAgent :=
  Build_DDPGAgent (args self) (curr_state self) (total_step self)
    (episode_step self) (i_episode self) (params self) (network_cfg self)
    (optim_cfg self) (state_dim self) (action_dim self) v (actor self)
    (actor_target self) (critic self) (critic_target self) (actor_optim self)
    (critic_optim self) (memory self).

Definition set_actor (v : MLP) (self : DDPGAgent) : DDPGAgent :=
  Build_DDPGAgent (args self) (curr_state self) (total_step self)
    (episode_step self) (i_episode self) (params self) (network_cfg self)
    (optim_cfg self) (state_dim self) (action_dim self) (noise self) v
    (actor_target self) (critic self) (critic_target self) (actor_optim self)
    (critic_optim self) (memory self).

Definition set_actor_target (v : MLP) (self : DDPGAgent) : DDPGAgent :=
  Build_DDPGAgent (args self) (curr_state self) (total_step self)
    (episode_step self) (i_episode self) (params self) (network_cfg self)
    (optim_cfg self) (state_dim self) (action_dim self) (noise self)
    (actor self) v (critic self) (critic_target self) (actor_optim self)
    (critic_optim self) (memory self).

Definition set_critic (v : MLP) (self : DDPGAgent) : DDPGAgent :=
  Build_DDPGAgent (args self) (curr_state self) (total_step self)
    (episode_step self) (i_episode self) (params self) (network_cfg self)
    (optim_cfg self) (state_dim self) (action_dim self) (noise self)
    (actor self) (actor_target self) v (critic_target self) (actor_optim self)
    (critic_optim self) (memory self).

Definition set_critic_target (v : MLP) (self : DDPGAgent) : DDPGAgent :=
  Build_DDPGAgent (args self) (curr_state self) (total_step self)
    (episode_step self) (i_episode self) (params self) (network_cfg self)
    (optim_cfg self) (state_dim self) (action_dim self) (noise self)
    (actor self) (actor_target self) (critic self) v (actor_optim self)
    (critic_optim self) (memory self).

Definition set_actor_optim (v : Adam) (self : DDPGAgent) : DDPGAgent :=
  Build_DDPGAgent (args self) (curr_state self) (total_step self)
    (episode_step self) (i_episode self) (params self) (network_cfg self)
    (optim_cfg self) (state_dim self) (action_dim self) (noise self)
    (actor self) (actor_target self) (critic self) (critic_target self) v
    (critic_optim self) (memory self).

Definition set_critic_optim (v : Adam) (self : DDPGAgent) : DDPGAgent :=
  Build_DDPGAgent (args self) (curr_state self) (total_step self)
    (episode_step self) (i_episode self) (params self) (network_cfg self)
    (optim_cfg self) (state_dim self) (action_dim self) (noise self)
    (actor self) (actor_target self) (critic self) (critic_target self)
    (actor_optim self) v (memory self).

Definition set_memory (v : option ReplayBuffer) (self : DDPGAgent) : DDPGAgent :=
  Build_DDPGAgent (args self) (curr_state self) (total_step self)
    (episode_step self) (i_episode self) (params self) (network_cfg self)
    (optim_cfg self) (state_dim self) (action_dim self) (noise self)
    (actor self) (actor_target self) (critic self) (critic_target self)
    (actor_optim self) (critic_optim self) v.

Record World := {
  agent : DDPGAgent;
  host : Host
}.

Definition get_self : M World DDPGAgent := fun w => (Ok (agent w), w, []).
Definition get_host : M World Host := fun w => (Ok (host w), w, []).
Definition update_self (f : DDPGAgent -> DDPGAgent) : M World unit :=
  modify (fun w => {| agent := f (agent w); host := host w |}).
Definition update_host (f : Host -> Host) : M World unit :=
  modify (fun w => {| agent := agent w; host := f (host w) |}).

(** [print(...)] *)
Definition print (o : output) : M World unit :=
  update_host (fun h => set_stdout (stdout h ++ [o]) h).

(** [self.memory]: the attribute exists only once [_initialize] has set it. *)
Definition get_memory : M World ReplayBuffer :=
  self <- get_self ;;
  match memory self with
  | Some m => ret m
  | None => raise (AttributeError "memory")
  end.

(** ** The base class

    [algorithms/common/abstract/agent.py] is not part of the sources.  Its
    [save_params] writes a checkpoint to the disk; its [interim_test] runs
    evaluation episodes (greedy, no noise, no learning, no storage): it
    drives the environment and leaves in the agent only the last observation
    [select_action] recorded. *)
Variable Agent_save_params : checkpoint -> Z -> Host -> Host.
Variable Agent_interim_test : DDPGAgent -> Host -> tensor * Host.

Definition interim_test : M World unit :=
  emit EvInterimTest ;;
  self <- get_self ;;
  h <- get_host ;;
  let (last_state, h') := Agent_interim_test self h in
  update_self (set_curr_state last_state) ;;
  update_host (fun _ => h').

(** [time.time()] *)
Definition time_time : M World Q :=
  h <- get_host ;;
  let (t, o') := draw (rng h) in
  update_host (set_rng o') ;;
  ret t.

(** ** Construction *)

(** The attributes [__init__] sets before it calls [_initialize]. *)
Record Attrs := {
  init_args : Namespace;
  init_params : HyperParams;
  init_network_cfg : NetworkCfg;
  init_optim_cfg : OptimCfg;
  init_state_dim : Z;
  init_action_dim : Z;
  init_noise : OUNoise
}.

(** [MLP(...)]: a network with freshly drawn weights. *)
Definition MLP_new (n : net) (input output : Z) (hidden : list Z)
  (act : activation) : M Host MLP :=
  emit (EvNewMLP n) ;;
  h <- get ;;
  let (ws, o') := draws (n_params (input :: hidden ++ [output])) (rng h) in
  modify (set_rng o') ;;
  ret {| input_size := input; output_size := output; hidden_sizes := hidden;
         output_activation := act; weights := ws |}.

(** [optim.Adam(parameters, lr, weight_decay)] *)
Definition optim_Adam (n : net) (lr wd : Q) : M Host Adam :=
  emit (EvNewAdam n) ;;
  ret (Adam_new lr wd).

(** Run a method on the object [self]. *)
Definition as_self {A : Type} (self : DDPGAgent) (m : M World A)
  : M Host (A * DDPGAgent) :=
  fun h =>
    match m {| agent := self; host := h |} with
    | (Ok a, w, t) => (Ok (a, agent w), host w, t)
    | (Raise e, w, t) => (Raise e, host w, t)
    | (OutOfFuel, w, t) => (OutOfFuel, host w, t)
    end.

(** [params[key]] *)
Definition item {S : Type} (ckpt : checkpoint) (key : string) : M S blob :=
  match lookup key ckpt with
  | Some b => ret b
  | None => raise (KeyError key)
  end.

Definition MLP_load (m : MLP) (b : blob) : M World MLP :=
  match b with
  | StateDict ws => load_state_dict m ws
  | OptimState _ => raise (RuntimeError "not a module state")
  end.

Definition Adam_load (b : blob) : M World Adam :=
  match b with
  | OptimState opt => ret opt
  | StateDict _ => raise (RuntimeError "not an optimizer state")
  end.

Definition load_params (path : string) : M World unit :=
  h <- get_host ;;
  if negb (os_path_exists path h) then
    print (Print ("[ERROR] the input path does not exist. -> " ++ path))
  else
    match lookup path (disk h) with
    | None => raise (RuntimeError "torch.load")
    | Some ckpt =>
        b <- item ckpt "actor_state_dict" ;;
        self <- get_self ;;
        m <- MLP_load (actor self) b ;;
        update_self (set_actor m) ;;
        b <- item ckpt "actor_target_state_dict" ;;
        self <- get_self ;;
        m <- MLP_load (actor_target self) b ;;
        update_self (set_actor_target m) ;;
        b <- item ckpt "critic_state_dict" ;;
        self <- get_self ;;
        m <- MLP_load (critic self) b ;;
        update_self (set_critic m) ;;
        b <- item ckpt "critic_target_state_dict" ;;
        self <- get_self ;;
        m <- MLP_load (critic_target self) b ;;
        update_self (set_critic_target m) ;;
        b <- item ckpt "actor_optim_state_dict" ;;
        opt <- Adam_load b ;;
        update_self (set_actor_optim opt) ;;
        b <- item ckpt "critic_optim_state_dict" ;;
        opt <- Adam_load b ;;
        update_self (set_critic_optim opt) ;;
        print (Print ("[INFO] loaded the model and optimizer from " ++ path))
    end.

(** The body of [_init_network] up to the optimizers: the object with its
    networks and optimizers, before any checkpoint is loaded. *)
Definition _init_network_create (a : Attrs) : M Host DDPGAgent :=
  (* create actor *)
  actor0 <- MLP_new Actor (init_state_dim a) (init_action_dim a)
              (hidden_sizes_actor (init_network_cfg a)) Tanh ;;
  actor_target0 <- MLP_new ActorTarget (init_state_dim a) (init_action_dim a)
              (hidden_sizes_actor (init_network_cfg a)) Tanh ;;
  actor_target1 <- load_state_dict actor_target0 (state_dict actor0) ;;
  (* create critic *)
  critic0 <- MLP_new Critic (init_state_dim a + init_action_dim a) 1
              (hidden_sizes_critic (init_network_cfg a)) Identity ;;
  critic_target0 <- MLP_new CriticTarget (init_state_dim a + init_action_dim a) 1
              (hidden_sizes_critic (init_network_cfg a)) Identity ;;
  critic_target1 <- load_state_dict critic_target0 (state_dict critic0) ;;
  (* create optimizer *)
  actor_optim0 <- optim_Adam Actor (lr_actor (init_optim_cfg a))
                    (weight_decay (init_optim_cfg a)) ;;
  critic_optim0 <- optim_Adam Critic (lr_critic (init_optim_cfg a))
                    (weight_decay (init_optim_cfg a)) ;;
  ret {| args := init_args a; curr_state := [0%Q]; total_step := 0;
         episode_step := 0; i_episode := 0; params := init_params a;
         network_cfg := init_network_cfg a; optim_cfg := init_optim_cfg a;
         state_dim := init_state_dim a; action_dim := init_action_dim a;
         noise := init_noise a;
         actor := actor0; actor_target := actor_target1;
         critic := critic0; critic_target := critic_target1;
         actor_optim := actor_optim0; critic_optim := critic_optim0;
         memory := None |}.

Definition _init_network (a : Attrs) : M Host DDPGAgent :=
  self <- _init_network_create a ;;
  (* load the optimizer and model parameters *)
  h <- get ;;
  match load_from (init_args a) with
  | Some path =>
      if os_path_exists path h then
        r <- as_self self (load_params path) ;;
        ret (snd r)
      else ret self
  | None => ret self
  end.

Definition _initialize (a : Attrs) : M Host DDPGAgent :=
  (* create network *)
  self <- _init_network a ;;
  if negb (test (init_args a)) then
    (* replay memory *)
    emit EvNewReplayBuffer ;;
    ret (set_memory
           (Some (ReplayBuffer_new (buffer_size self) (batch_size self))) self)
  else ret self.

(** [DDPGAgent.__init__] *)
Definition DDPGAgent_init (args0 : Namespace) (params0 : HyperParams)
  (network_cfg0 : NetworkCfg) (optim_cfg0 : OptimCfg) (noise_cfg : NoiseCfg)
  : M Host DDPGAgent :=
  h <- get ;;
  let action_dim0 := action_space_shape0 (env h) in
  _initialize
    {| init_args := args0; init_params := params0;
       init_network_cfg := network_cfg0; init_optim_cfg := optim_cfg0;
       init_state_dim := observation_space_shape0 (env h);
       init_action_dim := action_dim0;
       init_noise := OUNoise_new action_dim0 (ou_noise_theta noise_cfg)
                       (ou_noise_sigma noise_cfg) |}.

(** ** Acting *)

(** [torch.FloatTensor(state).to(device)] *)
Definition _preprocess_state (state : tensor) : tensor := state.

Definition select_action (state : tensor) : M World tensor :=
  update_self (set_curr_state state) ;;
  let state := _preprocess_state state in
  self <- get_self ;;
  (* if initial random action should be conducted *)
  if (total_step self <? initial_random_action self) && negb (test (args self))
  then
    emit EvActionSpaceSample ;;
    h <- get_host ;;
    let (random_action, e') := action_space_sample (env h) in
    update_host (set_env e') ;;
    ret random_action
  else
    let selected_action := forward (actor self) state in
    if negb (test (args self)) then
      emit EvNoiseSample ;;
      h <- get_host ;;
      let '(noise0, n', o') := OUNoise_sample (noise self) (rng h) in
      update_self (set_noise n') ;;
      update_host (set_rng o') ;;
      ret (map (clip1 (-1) 1) (zip_with Qplus selected_action noise0))
    else ret selected_action.

Definition _add_transition_to_memory (transition : Transition) : M World unit :=
  m <- get_memory ;;
  emit (EvMemoryAdd (t_done transition)) ;;
  update_self (set_memory (Some (ReplayBuffer_add transition m))).

Definition step (action : tensor) : M World (tensor * Q * bool) :=
  emit EvEnvStep ;;
  h <- get_host ;;
  let '(next_state, reward, done, e') := env_step (env h) action in
  update_host (set_env e') ;;
  self <- get_self ;;
  (if negb (test (args self)) then
     (* if the last state is not a terminal state, store done as false *)
     let done_bool :=
       if episode_step self =? max_episode_steps (args self) then false else done in
     emit (EvTruncationCheck (episode_step self) (max_episode_steps (args self))
             done done_bool) ;;
     let transition :=
       {| t_state := curr_state self; t_action := action; t_reward := reward;
          t_next_state := next_state; t_done := done_bool |} in
     _add_transition_to_memory transition
   else ret tt) ;;
  ret (next_state, reward, done).

(** ** Learning *)

(** Lines 210-214 of [update_model]: the returns the critic is trained on. *)
Definition curr_returns_of (self : DDPGAgent) (experiences : Experiences) : list Q :=
  let masks := map (fun d => (1 - d)%Q) (e_dones experiences) in
  let next_actions := forward_batch (actor_target self) (e_next_states experiences) in
  let next_values :=
    column (forward_batch (critic_target self)
              (cat (e_next_states experiences) next_actions)) in
  zip_with Qplus (e_rewards experiences)
    (zip_with Qmult (map (Qmult (gamma self)) next_values) masks).

(** Lines 217-218: the critic loss, for a critic [c]. *)
Definition critic_loss_of (c : MLP) (states actions : list tensor)
  (curr_returns : list Q) : Q :=
  let values := column (forward_batch c (cat states actions)) in
  mse_loss values curr_returns.

(** Lines 225-226: the actor loss, for an actor [a] and a critic [c]. *)
Definition actor_loss_of (a c : MLP) (states : list tensor) : Q :=
  let actions := forward_batch a states in
  (- mean (column (forward_batch c (cat states actions))))%Q.

(** [zero_grad(); loss.backward(); clip_grad_norm_(parameters, max_norm);
    optim.step()] for the network [m], whose loss is [loss] as a function of
    its weights. *)
Definition optimize (n : net) (loss : list Q -> Q) (max_norm : Q)
  (opt : Adam) (m : MLP) : M World (MLP * Adam) :=
  let g := clip_grad_norm_ (grad loss (weights m)) max_norm in
  emit (EvOptimStep n max_norm) ;;
  let (ws, opt') := Adam_step opt (weights m) g in
  ret (with_weights m ws, opt').

Definition update_model : M World (Q * Q) :=
  m <- get_memory ;;
  h <- get_host ;;
  emit (EvMemorySample (ReplayBuffer_len m) (rb_batch_size m)) ;;
  match ReplayBuffer_sample m (rng h) with
  | None => raise ContractViolation
  | Some (experiences, o') =>
      update_host (set_rng o') ;;
      let states := e_states experiences in
      let actions := e_actions experiences in
      self <- get_self ;;
      let curr_returns := curr_returns_of self experiences in
      (* train critic *)
      let critic_loss := critic_loss_of (critic self) states actions curr_returns in
      r <- optimize Critic
             (fun ws => critic_loss_of (with_weights (critic self) ws)
                          states actions curr_returns)
             (gradient_clip_cr self) (critic_optim self) (critic self) ;;
      update_self (fun s => set_critic_optim (snd r) (set_critic (fst r) s)) ;;
      (* train actor *)
      self <- get_self ;;
      let actor_loss := actor_loss_of (actor self) (critic self) states in
      r <- optimize Actor
             (fun ws => actor_loss_of (with_weights (actor self) ws)
                          (critic self) states)
             (gradient_clip_ac self) (actor_optim self) (actor self) ;;
      update_self (fun s => set_actor_optim (snd r) (set_actor (fst r) s)) ;;
      (* update target networks *)
      self <- get_self ;;
      emit (EvSoftUpdate ActorTarget) ;;
      update_self (set_actor_target
                     (soft_update (actor self) (actor_target self) (tau self))) ;;
      emit (EvSoftUpdate CriticTarget) ;;
      update_self (set_critic_target
                     (soft_update (critic self) (critic_target self) (tau self))) ;;
      ret (actor_loss, critic_loss)
  end.

(** ** Checkpoints and reports *)

Definition save_params (n_episode : Z) : M World unit :=
  self <- get_self ;;
  let params0 : checkpoint :=
    [ ("actor_state_dict", StateDict (state_dict (actor self)));
      ("actor_target_state_dict", StateDict (state_dict (actor_target self)));
      ("critic_state_dict", StateDict (state_dict (critic self)));
      ("critic_target_state_dict", StateDict (state_dict (critic_target self)));
      ("actor_optim_state_dict", OptimState (actor_optim self));
      ("critic_optim_state_dict", OptimState (critic_optim self)) ]%string in
  emit (EvSaveParams n_episode) ;;
  update_host (Agent_save_params params0 n_episode).

Definition write_log (i : Z) (loss : Q * Q) (score avg_time_cost : Q) : M World unit :=
  let total_loss := (fst loss + snd loss)%Q in
  self <- get_self ;;
  print (PrintLog i (episode_step self) (total_step self) score total_loss
           (fst loss) (snd loss) avg_time_cost) ;;
  if log (args self)
  then print (WandbLog score total_loss (fst loss) (snd loss) avg_time_cost)
  else ret tt.

Definition pretrain : M World unit := ret tt.

(** ** The training loop *)

(** [for _ in range(self.multiple_learn): ...] *)
Fixpoint learn (n : nat) (losses : list (Q * Q)) : M World (list (Q * Q)) :=
  match n with
  | O => ret losses
  | S n' =>
      loss <- update_model ;;
      learn n' (losses ++ [loss])
  end.

(** One iteration of [while not done]; it returns the new values of the
    local variables [state], [score], [losses] and [done]. *)
Definition train_step (state : tensor) (score : Q) (losses : list (Q * Q))
  : M World (tensor * Q * list (Q * Q) * bool) :=
  self <- get_self ;;
  (if render (args self) && (render_after (args self) <=? i_episode self)
   then emit EvEnvRender else ret tt) ;;
  action <- select_action state ;;
  ' (next_state, reward, done) <- step action ;;
  update_self (fun s => set_total_step (total_step s + 1) s) ;;
  update_self (fun s => set_episode_step (episode_step s + 1) s) ;;
  m <- get_memory ;;
  self <- get_self ;;
  losses' <- (if batch_size self <=? ReplayBuffer_len m
              then learn (Z.to_nat (multiple_learn self)) losses
              else ret losses) ;;
  ret (next_state, (score + reward)%Q, losses', done).

(** [while not done], run for at most [fuel] iterations. *)
Fixpoint while_not_done (fuel : nat) (state : tensor) (score : Q)
  (losses : list (Q * Q)) : M World (Q * list (Q * Q)) :=
  match fuel with
  | O => out_of_fuel
  | S fuel' =>
      ' (next_state, score', losses', done) <- train_step state score losses ;;
      if done : bool then ret (score', losses')
      else while_not_done fuel' next_state score' losses'
  end.

(** The body of [for self.i_episode in range(1, episode_num + 1)]. *)
Definition episode (fuel : nat) (i : Z) : M World unit :=
  update_self (set_i_episode i) ;;
  emit EvEnvReset ;;
  h <- get_host ;;
  let (state, e') := env_reset (env h) in
  update_host (set_env e') ;;
  update_self (set_episode_step 0) ;;
  t_begin <- time_time ;;
  ' (score, losses) <- while_not_done fuel state 0%Q [] ;;
  t_end <- time_time ;;
  self <- get_self ;;
  let avg_time_cost := ((t_end - t_begin) / inject_Z (episode_step self))%Q in
  (* logging *)
  (match losses with
   | [] => ret tt
   | _ :: _ =>
       let avg_loss := (mean (map fst losses), mean (map snd losses)) in
       write_log (i_episode self) avg_loss score avg_time_cost
   end) ;;
  if save_period (args self) =? 0 then raise ZeroDivisionError
  else if i_episode self mod save_period (args self) =? 0 then
    save_params (i_episode self) ;;
    interim_test
  else ret tt.

Definition train (fuel : nat) : M World unit :=
  self <- get_self ;;
  (* logger *)
  (if log (args self) then emit EvSetWandb else ret tt) ;;
  (* pre-training if needed *)
  pretrain ;;
  for_each (range 1 (episode_num (args self) + 1)) (episode fuel) ;;
  (* termination *)
  emit EvEnvClose ;;
  self <- get_self ;;
  save_params (i_episode self) ;;
  interim_test.

End DDPG.

(** ** Properties of traces *)

(** The number of environment steps taken in the current episode, updated
    by one effect. *)
Definition count_step (k : Z) (e : event) : Z :=
  match e with
  | EvEnvReset => 0
  | EvEnvStep => k + 1
  | _ => k
  end.

(** The number of environment steps taken since the last reset. *)
Definition steps_in_episode (tr : list event) : Z := fold_left count_step tr 0.

(** A monitor reads a trace effect by effect: [mon_ok] is what it requires
    of an effect in its current state, [mon_step] its next state. *)
Record monitor (G : Type) := {
  mon_step : G -> event -> G;
  mon_ok : G -> event -> Prop
}.
Arguments mon_step {G} _ _ _.
Arguments mon_ok {G} _ _ _.

Fixpoint accepts {G : Type} (mon : monitor G) (g : G) (tr : list event) : Prop :=
  match tr with
  | [] => True
  | e :: tr' => mon_ok mon g e /\ accepts mon (mon_step mon g e) tr'
  end.

Definition advance {G : Type} (mon : monitor G) (g : G) (tr : list event) : G :=
  fold_left (mon_step mon) tr g.

(** The monitor neither constrains nor counts the effects of the class [C]. *)
Definition ignores {G : Type} (mon : monitor G) (C : event -> bool) : Prop :=
  forall e g, C e = true -> mon_ok mon g e /\ mon_step mon g e = g.

(** Running [m] from [s] performs effects the monitor accepts from [g]; if
    it returns, [post] holds of the value, the state and the monitor; if it
    raises, the exception is one of [E]. *)
Definition wp {S A G : Type} (mon : monitor G) (E : exn -> Prop) (m : M S A)
  (post : A -> S -> G -> Prop) (s : S) (g : G) : Prop :=
  accepts mon g (trace_of (m s)) /\
  match result_of (m s) with
  | Ok a => post a (state_of (m s)) (advance mon g (trace_of (m s)))
  | Raise e => E e
  | OutOfFuel => True
  end.

(** Every truncation check sees [episode_step] one less than the number of
    environment steps of its episode, the step that led to the check
    included, and yields the flag of the environment unless that value is the
    cap. *)
Definition lag_monitor : monitor Z := {|
  mon_step := count_step;
  mon_ok := fun k e =>
    match e with
    | EvTruncationCheck es cap done done_bool =>
        es = k - 1 /\ done_bool = (if es =? cap then false else done)
    | _ => True
    end
|}.

(** The precondition of [sample] held when it was called. *)
Definition sample_ok (e : event) : Prop :=
  match e with
  | EvMemorySample len batch => batch <= len
  | _ => True
  end.

Definition is_sample (e : event) : bool :=
  match e with
  | EvMemorySample _ _ => true
  | _ => false
  end.

(** The number of calls of [sample], one per call of [update_model]. *)
Definition n_samples (tr : list event) : nat := length (filter is_sample tr).

(** Effects that leave the environment and the buffer alone. *)
Definition quiet (e : event) : bool :=
  match e with
  | EvEnvReset | EvEnvStep | EvTruncationCheck _ _ _ _ | EvMemorySample _ _ => false
  | _ => true
  end.

(** Effects other than those on the environment and the truncation check. *)
Definition calm (e : event) : bool :=
  match e with
  | EvEnvReset | EvEnvStep | EvTruncationCheck _ _ _ _ => false
  | _ => true
  end.

(** No effect at all. *)
Definition silent (e : event) : bool := false.

(** Every call of [sample] meets its precondition; the monitor counts the
    calls. *)
Definition sample_monitor : monitor nat := {|
  mon_step := fun n e => if is_sample e then S n else n;
  mon_ok := fun _ e => sample_ok e
|}.

Definition is_check (e : event) : bool :=
  match e with
  | EvTruncationCheck _ _ _ _ => true
  | _ => false
  end.

Definition net_eqb (a b : net) : bool :=
  match a, b with
  | Actor, Actor | ActorTarget, ActorTarget
  | Critic, Critic | CriticTarget, CriticTarget => true
  | _, _ => false
  end.

(** The optimizer steps applied to the network [n]. *)
Definition is_optim_step (n : net) (e : event) : bool :=
  match e with
  | EvOptimStep n' _ => net_eqb n n'
  | _ => false
  end.

(** Construction of the agent built no target copy of a network. *)
Definition only_live_networks (tr : list event) : Prop :=
  ~ In (EvNewMLP ActorTarget) tr /\ ~ In (EvNewMLP CriticTarget) tr.

(** What [_init_network] builds, in order. *)
Definition network_creation : list event :=
  [EvNewMLP Actor; EvNewMLP ActorTarget; EvNewMLP Critic; EvNewMLP CriticTarget;
   EvNewAdam Actor; EvNewAdam Critic].

(** Sets of exceptions. *)
Definition any_exn (e : exn) : Prop := True.
Definition no_exn (e : exn) : Prop := False.

Definition not_contract_violation (e : exn) : Prop := e <> ContractViolation.

Section Invariants.

Context {gym : Gym} {rnd : Oracle} {torch : Torch}.

(** The buffer draws batches of the agent's [batch_size]. *)
Definition wf (self : DDPGAgent) : Prop :=
  forall m, memory self = Some m -> rb_batch_size m = batch_size self.

(** What the training loop reads of the agent besides its networks. *)
Definition loop_state (self : DDPGAgent)
  : Z * option ReplayBuffer * HyperParams * Namespace :=
  (episode_step self, memory self, params self, args self).

(** [m] performs effects of the class [C] only, leaves [f] of the agent as
    it was, and raises exceptions of [X] only; it needs no fuel. *)
Definition keeps {T A : Type} (f : DDPGAgent -> T) (C : event -> bool)
  (X : exn -> Prop) (m : M World A) : Prop :=
  forall w,
    Forall (fun e => C e = true) (trace_of (m w)) /\
    f (agent (state_of (m w))) = f (agent w) /\
    match result_of (m w) with
    | Ok _ => True
    | Raise e => X e
    | OutOfFuel => False
    end.

End Invariants.

(** ** Further readings of traces and of the agent *)

Definition is_env_step (e : event) : bool :=
  match e with
  | EvEnvStep => true
  | _ => false
  end.

Definition is_save (e : event) : bool :=
  match e with
  | EvSaveParams _ => true
  | _ => false
  end.

Definition is_interim_test (e : event) : bool :=
  match e with
  | EvInterimTest => true
  | _ => false
  end.

(** The number of calls of [env.step] in a trace. *)
Definition env_steps (tr : list event) : Z :=
  Z.of_nat (length (filter is_env_step tr)).

(** Effects other than a step of the environment, a checkpoint and an
    interim test. *)
Definition plain (e : event) : bool :=
  negb (is_env_step e || is_save e || is_interim_test e).

(** The monitor counts the steps of the environment and requires that an
    interim test follows a checkpoint at once, and nothing else. *)
Definition audit_monitor : monitor (Z * bool) := {|
  mon_step := fun g e => (if is_env_step e then fst g + 1 else fst g, is_save e);
  mon_ok := fun g e => snd g = is_interim_test e
|}.

(** In the state [g] the monitor neither constrains nor counts the effects
    of the class [C]. *)
Definition ignores_at {G : Type} (mon : monitor G) (C : event -> bool) (g : G)
  : Prop :=
  forall e, C e = true -> mon_ok mon g e /\ mon_step mon g e = g.

Definition raises_only (e0 : exn) (e : exn) : Prop := e = e0.

Section Readings.

Context {gym : Gym} {rnd : Oracle} {torch : Torch}.

(** The counters and the configuration of a run. *)
Definition run_state (self : DDPGAgent) : Z * Z * HyperParams * Namespace :=
  (total_step self, i_episode self, params self, args self).

(** What [update_model] and [load_params] leave alone. *)
Definition outside_networks (self : DDPGAgent)
  : Namespace * tensor * Z * Z * Z * HyperParams * NetworkCfg * OptimCfg
    * Z * Z * OUNoise * option ReplayBuffer :=
  (args self, curr_state self, total_step self, episode_step self,
   i_episode self, params self, network_cfg self, optim_cfg self,
   state_dim self, action_dim self, noise self, memory self).

(** What [select_action] leaves alone. *)
Definition outside_acting (self : DDPGAgent)
  : Namespace * Z * Z * Z * HyperParams
    * MLP * MLP * MLP * MLP * Adam * Adam * option ReplayBuffer :=
  (args self, total_step self, episode_step self, i_episode self, params self,
   actor self, actor_target self, critic self, critic_target self,
   actor_optim self, critic_optim self, memory self).

(** The shape of a network: what [load_state_dict] keeps. *)
Definition shape (m : MLP) : Z * Z * list Z * activation :=
  (input_size m, output_size m, hidden_sizes m, output_activation m).

(** The dict [save_params] hands to the base class. *)
Definition checkpoint_of (self : DDPGAgent) : checkpoint :=
  [ ("actor_state_dict", StateDict (state_dict (actor self)));
    ("actor_target_state_dict", StateDict (state_dict (actor_target self)));
    ("critic_state_dict", StateDict (state_dict (critic self)));
    ("critic_target_state_dict", StateDict (state_dict (critic_target self)));
    ("actor_optim_state_dict", OptimState (actor_optim self));
    ("critic_optim_state_dict", OptimState (critic_optim self)) ]%string.

(** The agent with the six parameter blocks of a checkpoint of [saved]. *)
Definition restored (saved self : DDPGAgent) : DDPGAgent :=
  set_critic_optim (critic_optim saved)
    (set_actor_optim (actor_optim saved)
       (set_critic_target
          (with_weights (critic_target self) (weights (critic_target saved)))
          (set_critic (with_weights (critic self) (weights (critic saved)))
             (set_actor_target
                (with_weights (actor_target self) (weights (actor_target saved)))
                (set_actor (with_weights (actor self) (weights (actor saved)))
                   self))))).

(** The networks of [self] have the sizes of those of [saved]. *)
Definition same_sizes (saved self : DDPGAgent) : Prop :=
  length (weights (actor saved)) = length (weights (actor self)) /\
  length (weights (actor_target saved)) = length (weights (actor_target self)) /\
  length (weights (critic saved)) = length (weights (critic self)) /\
  length (weights (critic_target saved)) = length (weights (critic_target self)).

End Readings.

(** ** A small instance

    An environment with a step cap and no terminal state (every episode ends
    by truncation, as Pendulum does), a counter as random source, and
    one-weight stand-ins for the numerical back end. *)
Module TimeLimit.

Record state := { elapsed : Z; cap : Z }.

Definition observe (s : state) : tensor := [inject_Z (elapsed s)].

#[export] Instance gym : Gym := {|
  env_state := state;
  observation_space_shape0 := fun _ => 1;
  action_space_shape0 := fun _ => 1;
  env_reset := fun s =>
    let s' := {| elapsed := 0; cap := cap s |} in (observe s', s');
  env_step := fun s _ =>
    let s' := {| elapsed := elapsed s + 1; cap := cap s |} in
    ((observe s', 1%Q, cap s <=? elapsed s'), s');
  action_space_sample := fun s => ([0%Q], s)
|}.

#[export] Instance counter : Oracle := {|
  oracle := Z;
  draw := fun n => (inject_Z n, n + 1)
|}.

#[export] Instance torch : Torch := {|
  mlp_layers := fun _ _ out ws x => repeat (hd 0%Q ws * Qsum x)%Q (Z.to_nat out);
  tanh := clip1 (-1) 1;
  grad := fun _ ws => map (fun _ => 1%Q) ws;
  clip_grad_norm_ := fun g c => map (clip1 (- c) c) g;
  Adam := Q;
  Adam_new := fun lr _ => lr;
  Adam_step := fun lr ws g => (zip_with (fun w d => (w - lr * d)%Q) ws g, lr)
|}.

Definition save (ckpt : checkpoint) (n : Z) (h : Host) : Host :=
  set_disk (("checkpoint", ckpt)%string :: disk h) h.

Definition evaluate (self : DDPGAgent) (h : Host) : tensor * Host :=
  (curr_state self, h).

Definition args0 (is_test : bool) : Namespace :=
  {| test := is_test; load_from := None; max_episode_steps := 3;
     episode_num := 1; render := false; render_after := 0; log := false;
     save_period := 10 |}.

Definition params0 (batch : Z) : HyperParams :=
  {| p_gamma := 99 # 100; p_tau := 1 # 100; p_buffer_size := 5;
     p_batch_size := batch; p_initial_random_action := 1;
     p_multiple_learn := 2; p_gradient_clip_ac := 1 # 2;
     p_gradient_clip_cr := 1 |}.

Definition network_cfg0 : NetworkCfg :=
  {| hidden_sizes_actor := []; hidden_sizes_critic := [] |}.

Definition optim_cfg0 : OptimCfg :=
  {| lr_actor := 1 # 10; lr_critic := 1 # 10; weight_decay := 0 |}.

Definition noise_cfg0 : NoiseCfg :=
  {| ou_noise_theta := 0; ou_noise_sigma := 0 |}.

(** The environment capped at [max_episode_steps = 3], an empty disk. *)
Definition host0 : Host :=
  {| env := {| elapsed := 0; cap := 3 |}; rng := 1; stdout := []; disk := [] |}.

Definition construct (is_test : bool) (batch : Z) :=
  DDPGAgent_init (args0 is_test) (params0 batch) network_cfg0 optim_cfg0
    noise_cfg0 host0.

(** The world after construction; [None] if construction raised. *)
Definition world0 (is_test : bool) (batch : Z) : option World :=
  match construct is_test batch with
  | (Ok self, h, _) => Some {| agent := self; host := h |}
  | _ => None
  end.

Definition run {A : Type} (m : M World A) (w : option World)
  : option (outcome A * World * list event) :=
  option_map m w.

(** The flags [done] stored in the buffer, oldest first. *)
Definition stored_dones (w : World) : list bool :=
  match memory (agent w) with
  | Some m => map t_done (buffer m)
  | None => []
  end.

(** A transition as the capped environment produces them. *)
Definition seen (i : Z) (flag : bool) : Transition :=
  {| t_state := [inject_Z i]; t_action := [0%Q]; t_reward := 1%Q;
     t_next_state := [inject_Z (i + 1)]; t_done := flag |}.

Definition memory1 : ReplayBuffer :=
  {| buffer := [seen 0 false; seen 1 false; seen 2 true];
     rb_buffer_size := 5; rb_batch_size := 2 |}.

Definition mlp1 (input : Z) (act : activation) (ws : list Q) : MLP :=
  {| input_size := input; output_size := 1; hidden_sizes := [];
     output_activation := act; weights := ws |}.

(** An agent that has seen one episode. *)
Definition agent1 (is_test : bool) : DDPGAgent :=
  {| args := args0 is_test; curr_state := [2%Q]; total_step := 3;
     episode_step := 3; i_episode := 1; params := params0 2;
     network_cfg := network_cfg0; optim_cfg := optim_cfg0;
     state_dim := 1; action_dim := 1; noise := OUNoise_new 1 0 0;
     actor := mlp1 1 Tanh [1%Q; 2%Q];
     actor_target := mlp1 1 Tanh [1%Q; 2%Q];
     critic := mlp1 2 Identity [5%Q; 6%Q; 7%Q];
     critic_target := mlp1 2 Identity [5%Q; 6%Q; 7%Q];
     actor_optim := 1 # 10; critic_optim := 1 # 10;
     memory := if is_test then None else Some memory1 |}.

Definition world1 (is_test : bool) : World :=
  {| agent := agent1 is_test; host := host0 |}.

(** Arguments of a training run with a given cadence, number of episodes
    and checkpoint to load. *)
Definition args1 (period episodes : Z) (from : option string) : Namespace :=
  {| test := false; load_from := from; max_episode_steps := 3;
     episode_num := episodes; render := false; render_after := 0; log := false;
     save_period := period |}.

(** The agent of [agent1] under other arguments, after [steps] steps. *)
Definition agent2 (a : Namespace) (steps : Z) : DDPGAgent :=
  {| args := a; curr_state := [2%Q]; total_step := steps;
     episode_step := 0; i_episode := 0; params := params0 2;
     network_cfg := network_cfg0; optim_cfg := optim_cfg0;
     state_dim := 1; action_dim := 1; noise := OUNoise_new 1 0 0;
     actor := mlp1 1 Tanh [1%Q; 2%Q];
     actor_target := mlp1 1 Tanh [1%Q; 2%Q];
     critic := mlp1 2 Identity [5%Q; 6%Q; 7%Q];
     critic_target := mlp1 2 Identity [5%Q; 6%Q; 7%Q];
     actor_optim := 1 # 10; critic_optim := 1 # 10;
     memory := Some memory1 |}.

Definition world2 (a : Namespace) (steps : Z) : World :=
  {| agent := agent2 a steps; host := host0 |}.

(** The world of [world1] once a checkpoint is written, with the weights of
    the live actor overwritten since. *)
Definition world3 : World :=
  {| agent := set_actor (mlp1 1 Tanh [0%Q; 0%Q]) (agent1 false);
     host := save (checkpoint_of (agent1 false)) 1 host0 |}.

(** A disk whose checkpoint holds the state of the actor only. *)
Definition world4 : World :=
  {| agent := agent1 false;
     host := set_disk [("partial", [("actor_state_dict", StateDict [3%Q; 4%Q])])]%string
               host0 |}.

End TimeLimit.

(** * Properties *)

Section Properties.

Context {gym : Gym} {rnd : Oracle} {torch : Torch}.
Variable Agent_save_params : checkpoint -> Z -> Host -> Host.
Variable Agent_interim_test : DDPGAgent -> Host -> tensor * Host.

Local Open Scope monad_scope.

(** ** Lists *)

Lemma draws_length (n : nat) (o : oracle) : length (fst (draws n o)) = n.
Proof.
  revert o; induction n as [|n IH]; intro o; simpl; [reflexivity|].
  destruct (draw o) as [q o1].
  specialize (IH o1). destruct (draws n o1) as [qs o2].
  simpl in *. now rewrite IH.
Qed.

Lemma nth_error_zip_with {A B C : Type} (f : A -> B -> C) (xs : list A)
  (ys : list B) (i : nat) (x : A) (y : B) :
  nth_error xs i = Some x -> nth_error ys i = Some y ->
  nth_error (zip_with f xs ys) i = Some (f x y).
Proof.
  revert ys i; induction xs as [|x' xs IH]; intros [|y' ys] [|i] Hx Hy;
    simpl in *; try discriminate.
  - now inversion Hx; inversion Hy.
  - now apply IH.
Qed.

(** ** One call of [update_model] when sampling succeeds *)

Lemma update_model_run (w : World) (m : ReplayBuffer) :
  memory (agent w) = Some m ->
  rb_batch_size m <= ReplayBuffer_len m ->
  let self := agent w in
  let ts := fst (sampled m (rng (host w))) in
  let states := map t_state ts in
  let actions := map t_action ts in
  let curr_returns := curr_returns_of self (stack ts) in
  let critic_step :=
    Adam_step (critic_optim self) (weights (critic self))
      (clip_grad_norm_
         (grad (fun ws => critic_loss_of (with_weights (critic self) ws)
                            states actions curr_returns)
               (weights (critic self)))
         (gradient_clip_cr self)) in
  let critic' := with_weights (critic self) (fst critic_step) in
  let actor_step :=
    Adam_step (actor_optim self) (weights (actor self))
      (clip_grad_norm_
         (grad (fun ws => actor_loss_of (with_weights (actor self) ws)
                            critic' states)
               (weights (actor self)))
         (gradient_clip_ac self)) in
  let actor' := with_weights (actor self) (fst actor_step) in
  update_model w =
    (Ok (actor_loss_of (actor self) critic' states,
         critic_loss_of (critic self) states actions curr_returns),
     {| agent :=
          set_critic_target (soft_update critic' (critic_target self) (tau self))
            (set_actor_target (soft_update actor' (actor_target self) (tau self))
               (set_actor_optim (snd actor_step)
                  (set_actor actor'
                     (set_critic_optim (snd critic_step)
                        (set_critic critic' self)))));
        host := set_rng (snd (sampled m (rng (host w)))) (host w) |},
     [EvMemorySample (ReplayBuffer_len m) (rb_batch_size m);
      EvOptimStep Critic (gradient_clip_cr self);
      EvOptimStep Actor (gradient_clip_ac self);
      EvSoftUpdate ActorTarget; EvSoftUpdate CriticTarget]).
Proof.
  intros Hm Hlen. destruct w as [self h]. simpl in Hm |- *.
  unfold update_model, get_memory, bind, get_self, get_host, ret, emit.
  simpl. rewrite Hm. simpl.
  unfold ReplayBuffer_sample.
  apply Z.leb_le in Hlen. rewrite Hlen.
  destruct (sampled m (rng h)) as [ts o'] eqn:Es. simpl.
  unfold optimize, bind, emit, ret, update_self, update_host, modify. simpl.
  destruct (Adam_step (critic_optim self) _ _) as [cws copt] eqn:Ec. simpl.
  destruct (Adam_step (actor_optim self) _ _) as [aws aopt] eqn:Ea. simpl.
  reflexivity.
Qed.

Lemma zip_with_length {A B C : Type} (f : A -> B -> C) (xs : list A) (ys : list B) :
  length (zip_with f xs ys) = Nat.min (length xs) (length ys).
Proof.
  revert ys; induction xs as [|x xs IH]; intros [|y ys]; simpl; auto.
Qed.

Lemma curr_returns_length (self : DDPGAgent) (ts : list Transition) :
  length (curr_returns_of self (stack ts)) = length ts.
Proof.
  unfold curr_returns_of, column, forward_batch, cat, stack; simpl.
  repeat (rewrite zip_with_length || rewrite length_map).
  lia.
Qed.

Lemma curr_returns_nth (self : DDPGAgent) (ts : list Transition) (i : nat)
  (t : Transition) :
  nth_error ts i = Some t ->
  nth_error (curr_returns_of self (stack ts)) i =
    Some (t_reward t
          + gamma self
            * hd 0 (forward (critic_target self)
                      (t_next_state t ++ forward (actor_target self) (t_next_state t)))
            * (1 - float_of_bool (t_done t)))%Q.
Proof.
  intro Ht.
  unfold curr_returns_of, column, forward_batch, cat, stack; simpl.
  apply nth_error_zip_with.
  - rewrite nth_error_map, Ht; reflexivity.
  - apply nth_error_zip_with.
    + rewrite !nth_error_map.
      erewrite nth_error_zip_with.
      * reflexivity.
      * rewrite nth_error_map, Ht; reflexivity.
      * rewrite !nth_error_map, Ht; reflexivity.
    + rewrite !nth_error_map, Ht; reflexivity.
Qed.

(** C1.  The batch [update_model] samples is trained on the targets
    reward + gamma * critic_target(next_state, actor_target(next_state)) * mask
    with mask = 1 - done_flag: the critic loss it returns is the mean squared
    error against these targets, and the target of a sample whose flag is set
    is its reward. *)
Theorem C1_td_target_masks_terminal (w : World) (m : ReplayBuffer) :
  memory (agent w) = Some m ->
  rb_batch_size m <= ReplayBuffer_len m ->
  let self := agent w in
  let ts := fst (sampled m (rng (host w))) in
  let curr_returns := curr_returns_of self (stack ts) in
  (exists actor_loss,
      result_of (update_model w) =
        Ok (actor_loss,
            mse_loss
              (column (forward_batch (critic self)
                         (cat (map t_state ts) (map t_action ts))))
              curr_returns)) /\
  length curr_returns = length ts /\
  forall (i : nat) (t : Transition),
    nth_error ts i = Some t ->
    exists target_return,
      nth_error curr_returns i = Some target_return /\
      target_return =
        (t_reward t
         + gamma self
           * hd 0 (forward (critic_target self)
                     (t_next_state t ++ forward (actor_target self) (t_next_state t)))
           * (1 - float_of_bool (t_done t)))%Q /\
      (t_done t = true -> target_return == t_reward t).
Proof.
  intros Hm Hlen self ts curr_returns.
  pose proof (update_model_run w m Hm Hlen) as E. cbv zeta in E.
  split; [|split].
  - rewrite E. eexists. reflexivity.
  - apply curr_returns_length.
  - intros i t Ht. eexists. split; [apply curr_returns_nth, Ht|].
    split; [reflexivity|].
    intro Hd. rewrite Hd. simpl. ring.
Qed.

(** C3.  A call of [update_model] whose sampling precondition holds returns,
    and performs in this order: one buffer sample, the critic's optimizer
    step, the actor's optimizer step, the soft update of the target actor and
    the soft update of the target critic; both targets are averaged with the
    live networks as the two optimizer steps left them. *)
Theorem C3_update_order (w : World) (m : ReplayBuffer) :
  memory (agent w) = Some m ->
  rb_batch_size m <= ReplayBuffer_len m ->
  let self := agent w in
  let r := update_model w in
  let self' := agent (state_of r) in
  (exists losses, result_of r = Ok losses) /\
  trace_of r =
    [EvMemorySample (ReplayBuffer_len m) (rb_batch_size m);
     EvOptimStep Critic (gradient_clip_cr self);
     EvOptimStep Actor (gradient_clip_ac self);
     EvSoftUpdate ActorTarget; EvSoftUpdate CriticTarget] /\
  actor_target self' = soft_update (actor self') (actor_target self) (tau self) /\
  critic_target self' = soft_update (critic self') (critic_target self) (tau self).
Proof.
  intros Hm Hlen self r self'. subst r self'.
  pose proof (update_model_run w m Hm Hlen) as E. cbv zeta in E.
  rewrite E. simpl.
  split; [eexists; reflexivity|].
  repeat split; reflexivity.
Qed.

(** C4.  In a call of [update_model] whose sampling precondition holds, the
    actor loss is the negated mean of critic(state, actor(state)) with the
    actor as it was and the live critic as its optimizer step left it; the
    actor then takes one optimizer step, on the gradient of this loss in its
    weights clipped at [gradient_clip_ac]. *)
Theorem C4_actor_update (w : World) (m : ReplayBuffer) :
  memory (agent w) = Some m ->
  rb_batch_size m <= ReplayBuffer_len m ->
  let self := agent w in
  let r := update_model w in
  let self' := agent (state_of r) in
  let ts := fst (sampled m (rng (host w))) in
  let states := map t_state ts in
  let actor_loss :=
    (- mean (column (forward_batch (critic self')
                       (cat states (forward_batch (actor self) states)))))%Q in
  (exists critic_loss, result_of r = Ok (actor_loss, critic_loss)) /\
  critic self' =
    with_weights (critic self)
      (fst (Adam_step (critic_optim self) (weights (critic self))
              (clip_grad_norm_
                 (grad (fun ws =>
                          critic_loss_of (with_weights (critic self) ws) states
                            (map t_action ts) (curr_returns_of self (stack ts)))
                       (weights (critic self)))
                 (gradient_clip_cr self)))) /\
  actor self' =
    with_weights (actor self)
      (fst (Adam_step (actor_optim self) (weights (actor self))
              (clip_grad_norm_
                 (grad (fun ws =>
                          actor_loss_of (with_weights (actor self) ws)
                            (critic self') states)
                       (weights (actor self)))
                 (gradient_clip_ac self)))) /\
  filter (is_optim_step Actor) (trace_of r) =
    [EvOptimStep Actor (gradient_clip_ac self)] /\
  exists before after,
    trace_of r = before ++ EvOptimStep Actor (gradient_clip_ac self) :: after /\
    In (EvOptimStep Critic (gradient_clip_cr self)) before.
Proof.
  intros Hm Hlen self r self' ts states actor_loss.
  subst r self' actor_loss.
  pose proof (update_model_run w m Hm Hlen) as E. cbv zeta in E.
  rewrite E. simpl.
  split; [eexists; reflexivity|].
  split; [reflexivity|].
  split; [reflexivity|].
  split; [reflexivity|].
  exists [EvMemorySample (ReplayBuffer_len m) (rb_batch_size m);
          EvOptimStep Critic (gradient_clip_cr self)],
         [EvSoftUpdate ActorTarget; EvSoftUpdate CriticTarget].
  split; [reflexivity|]. simpl. auto.
Qed.

(** ** Loading a checkpoint *)

(** C8.  [load_params] on a path that does not exist returns normally after
    printing one error line: the agent, with the parameters of its four
    networks and both optimizers, is as it was. *)
Theorem C8_load_missing_path (path : string) (w : World) :
  os_path_exists path (host w) = false ->
  let r := load_params path w in
  let self := agent w in
  let self' := agent (state_of r) in
  result_of r = Ok tt /\
  stdout (host (state_of r)) =
    stdout (host w) ++ [Print ("[ERROR] the input path does not exist. -> " ++ path)] /\
  self' = self /\
  actor self' = actor self /\ actor_target self' = actor_target self /\
  critic self' = critic self /\ critic_target self' = critic_target self /\
  actor_optim self' = actor_optim self /\ critic_optim self' = critic_optim self /\
  disk (host (state_of r)) = disk (host w).
Proof.
  intros Hmissing r self self'. subst r self self'.
  unfold load_params, bind, get_host. simpl. rewrite Hmissing. simpl.
  repeat split; reflexivity.
Qed.

(** ** Procedures that keep a part of the agent *)

Section Keeps.

Context {T : Type} (f : DDPGAgent -> T) (C : event -> bool) (X : exn -> Prop).

Lemma keeps_ret {A : Type} (a : A) : keeps f C X (ret a).
Proof. intro w. simpl. auto. Qed.

Lemma keeps_raise {A : Type} (e : exn) : X e -> keeps f C X (@raise World A e).
Proof. intros He w. simpl. auto. Qed.

Lemma keeps_get_self : keeps f C X get_self.
Proof. intro w. simpl. auto. Qed.

Lemma keeps_get_host : keeps f C X get_host.
Proof. intro w. simpl. auto. Qed.

Lemma keeps_emit (e : event) : C e = true -> keeps f C X (emit e).
Proof. intros He w. simpl. auto. Qed.

Lemma keeps_update_host (g : Host -> Host) : keeps f C X (update_host g).
Proof. intro w. simpl. auto. Qed.

Lemma keeps_update_self (g : DDPGAgent -> DDPGAgent) :
  (forall a, f (g a) = f a) -> keeps f C X (update_self g).
Proof. intros Hg w. simpl. auto. Qed.

Lemma keeps_bind {A B : Type} (m : M World A) (k : A -> M World B) :
  keeps f C X m -> (forall a, keeps f C X (k a)) -> keeps f C X (bind m k).
Proof.
  intros Hm Hk w. specialize (Hm w). unfold bind.
  destruct (m w) as [[[a| |] w1] t1]; unfold trace_of, state_of, result_of in *;
    simpl in *; auto.
  destruct Hm as (Ht & Hf & _).
  specialize (Hk a w1). destruct (k a w1) as [[r w2] t2].
  unfold trace_of, state_of, result_of in *; simpl in *.
  destruct Hk as (Ht2 & Hf2 & Hr2).
  split; [apply Forall_app; auto|]. split; [congruence|assumption].
Qed.

End Keeps.

Ltac keeps_step :=
  first
    [ apply keeps_bind; [ | intro ]
    | apply keeps_ret
    | apply keeps_get_self
    | apply keeps_get_host
    | apply keeps_update_host
    | apply keeps_update_self; intro; reflexivity
    | apply keeps_emit; reflexivity
    | apply keeps_raise; solve [ exact I | discriminate | auto ]
    | match goal with
      | |- keeps _ _ _ (match ?x with _ => _ end) => destruct x
      end ].

Ltac keeps_auto := repeat keeps_step.

Lemma load_params_keeps (path : string) :
  keeps loop_state silent any_exn (load_params path).
Proof.
  unfold load_params, item, MLP_load, Adam_load, load_state_dict, print.
  keeps_auto.
Qed.

(** ** Construction *)

Lemma MLP_new_run (n : net) (input output : Z) (hidden : list Z)
  (act : activation) (h : Host) :
  let d := draws (n_params (input :: hidden ++ [output])) (rng h) in
  MLP_new n input output hidden act h =
    (Ok {| input_size := input; output_size := output; hidden_sizes := hidden;
           output_activation := act; weights := fst d |},
     set_rng (snd d) h, [EvNewMLP n]).
Proof.
  unfold MLP_new, bind, emit, get, modify, ret. cbv zeta.
  destruct (draws _ (rng h)) as [ws o']. reflexivity.
Qed.

Lemma load_state_dict_same_shape {S : Type} (input output : Z) (hidden : list Z)
  (act : activation) (ws ws' : list Q) (s : S) :
  length ws = length ws' ->
  load_state_dict
    {| input_size := input; output_size := output; hidden_sizes := hidden;
       output_activation := act; weights := ws' |} ws s =
    (Ok {| input_size := input; output_size := output; hidden_sizes := hidden;
           output_activation := act; weights := ws |}, s, []).
Proof.
  intro Hlen. unfold load_state_dict. simpl. rewrite Hlen, Nat.eqb_refl.
  reflexivity.
Qed.

Lemma _init_network_create_run (a : Attrs) (h : Host) :
  exists (self : DDPGAgent) (h' : Host),
    _init_network_create a h = (Ok self, h', network_creation) /\
    actor_target self = actor self /\
    critic_target self = critic self /\
    output_activation (actor self) = Tanh /\
    memory self = None /\
    args self = init_args a /\
    params self = init_params a.
Proof.
  unfold _init_network_create, bind, state_dict.
  rewrite MLP_new_run. cbv zeta.
  rewrite MLP_new_run. cbv zeta.
  rewrite load_state_dict_same_shape
    by (cbn [weights]; rewrite !draws_length; reflexivity).
  rewrite MLP_new_run. cbv zeta.
  rewrite MLP_new_run. cbv zeta.
  rewrite load_state_dict_same_shape
    by (cbn [weights]; rewrite !draws_length; reflexivity).
  unfold optim_Adam, bind, emit, ret. cbn [app].
  do 2 eexists. split; [reflexivity|].
  repeat split; reflexivity.
Qed.

(** C10.  After the networks are created and before any checkpoint is
    loaded, the target actor equals the live actor and the target critic
    equals the live critic, parameter for parameter. *)
Theorem C10_targets_start_equal (a : Attrs) (h : Host) :
  exists (self : DDPGAgent) (h' : Host) (tr : list event),
    _init_network_create a h = (Ok self, h', tr) /\
    state_dict (actor_target self) = state_dict (actor self) /\
    state_dict (critic_target self) = state_dict (critic self) /\
    actor_target self = actor self /\
    critic_target self = critic self.
Proof.
  destruct (_init_network_create_run a h)
    as (self & h' & E & Ha & Hc & _).
  exists self, h', network_creation.
  rewrite Ha, Hc. repeat split; auto.
Qed.

Lemma silent_trace (tr : list event) :
  Forall (fun e => silent e = true) tr -> tr = [].
Proof.
  destruct tr as [|e tr]; [reflexivity|].
  intro H. inversion H; subst. discriminate.
Qed.

Lemma _init_network_frame (a : Attrs) (h : Host) :
  trace_of (_init_network a h) = network_creation /\
  forall self, result_of (_init_network a h) = Ok self ->
    memory self = None /\ args self = init_args a /\ params self = init_params a.
Proof.
  unfold _init_network, bind.
  destruct (_init_network_create_run a h)
    as (self & h' & E & _ & _ & _ & Hmem & Hargs & Hparams).
  rewrite E. unfold get.
  destruct (load_from (init_args a)) as [path|].
  - destruct (os_path_exists path h').
    + unfold as_self.
      destruct (load_params_keeps path {| agent := self; host := h' |})
        as (Ft & Fs & _).
      apply silent_trace in Ft.
      destruct (load_params path {| agent := self; host := h' |})
        as [[[u| |] w'] t]; unfold trace_of, state_of, result_of in *;
        cbn in Ft, Fs |- *; subst t;
        (split; [reflexivity|]); intros self' Hr; try discriminate.
      inversion Hr; subst self'.
      unfold loop_state in Fs. inversion Fs. repeat split; congruence.
    + cbn. split; [reflexivity|]. intros self' Hr. inversion Hr; subst. auto.
  - cbn. split; [reflexivity|]. intros self' Hr. inversion Hr; subst. auto.
Qed.

(** C6 (amended).  Construction for a test run creates no experience buffer
    (the agent has no [memory]); it builds the four networks, target copies
    included, and the two optimizers as for a training run. *)
Theorem C6_test_run_skips_buffer_only (args0 : Namespace) (params0 : HyperParams)
  (network_cfg0 : NetworkCfg) (optim_cfg0 : OptimCfg) (noise_cfg : NoiseCfg)
  (h : Host) :
  test args0 = true ->
  let r := DDPGAgent_init args0 params0 network_cfg0 optim_cfg0 noise_cfg h in
  trace_of r = network_creation /\
  ~ In EvNewReplayBuffer (trace_of r) /\
  (forall self, result_of r = Ok self -> memory self = None) /\
  In (EvNewMLP ActorTarget) (trace_of r) /\
  In (EvNewMLP CriticTarget) (trace_of r).
Proof.
  clear Agent_save_params Agent_interim_test.
  intros Htest r. subst r.
  unfold DDPGAgent_init, _initialize, bind, get.
  match goal with
  | |- context [_init_network ?a h] =>
      destruct (_init_network_frame a h) as [Ft F];
      destruct (_init_network a h) as [[[self| |] h'] t]
  end; unfold trace_of, result_of in *; cbn in Ft, F |- *; subst t;
    rewrite ?Htest; cbn.
  all: split; [reflexivity|].
  all: split; [intuition discriminate|].
  all: split; [|split; simpl; tauto].
  - intros self' Hr. inversion Hr; subst. now apply F.
  - intros self' Hr. discriminate.
  - intros self' Hr. discriminate.
Qed.

(** ** Acting *)

Lemma select_action_test_run (state : tensor) (w : World) :
  test (args (agent w)) = true ->
  select_action state w =
    (Ok (forward (actor (agent w)) state),
     {| agent := set_curr_state state (agent w); host := host w |}, []).
Proof.
  intro Htest. destruct w as [self h]. simpl in Htest.
  unfold select_action, bind, update_self, modify, get_self, ret. simpl.
  rewrite Htest, andb_false_r. simpl. reflexivity.
Qed.

(** C7.  In test mode [select_action] returns [actor(state)]: it samples
    neither the action space nor the noise and leaves the noise process and
    the host as they were; with [tanh] as output activation every component
    lies in [-1,1], and two agents in test mode with the same actor return
    the same action for the same state. *)
Theorem C7_select_action_test_mode (state : tensor) (w : World) :
  test (args (agent w)) = true ->
  output_activation (actor (agent w)) = Tanh ->
  (forall x, -1 <= tanh x <= 1)%Q ->
  let r := select_action state w in
  result_of r = Ok (forward (actor (agent w)) state) /\
  trace_of r = [] /\
  noise (agent (state_of r)) = noise (agent w) /\
  host (state_of r) = host w /\
  (forall a, result_of r = Ok a -> Forall (fun x => -1 <= x <= 1)%Q a) /\
  (forall w2, test (args (agent w2)) = true ->
              actor (agent w2) = actor (agent w) ->
              result_of (select_action state w2) = result_of r).
Proof.
  intros Htest Hact Htanh r. subst r.
  rewrite (select_action_test_run state w Htest).
  unfold result_of, trace_of, state_of. simpl.
  repeat split; try reflexivity.
  - intros a Ha. inversion Ha; subst a. unfold forward. rewrite Hact.
    apply Forall_map. apply Forall_forall. intros x _. apply Htanh.
  - intros w2 Htest2 Hsame.
    rewrite (select_action_test_run state w2 Htest2). simpl. now rewrite Hsame.
Qed.

Lemma select_action_keeps (state : tensor) :
  keeps loop_state quiet no_exn (select_action state).
Proof.
  unfold select_action.
  keeps_auto.
Qed.

(** ** Monitored runs *)

Section WP.

Context {G : Type} (mon : monitor G) (E : exn -> Prop).

Lemma accepts_app (g : G) (t1 t2 : list event) :
  accepts mon g (t1 ++ t2) <->
  accepts mon g t1 /\ accepts mon (advance mon g t1) t2.
Proof.
  revert g; induction t1 as [|e t1 IH]; intro g; simpl.
  - tauto.
  - rewrite IH. unfold advance. simpl. tauto.
Qed.

Lemma advance_app (g : G) (t1 t2 : list event) :
  advance mon g (t1 ++ t2) = advance mon (advance mon g t1) t2.
Proof. unfold advance. apply fold_left_app. Qed.

Lemma ignored_trace (C : event -> bool) (g : G) (tr : list event) :
  ignores mon C -> Forall (fun e => C e = true) tr ->
  accepts mon g tr /\ advance mon g tr = g.
Proof.
  intros Hi H. induction H as [|e tr He _ IH]; simpl; [auto|].
  destruct (Hi e g He) as [Hok Hstep].
  unfold advance in *. simpl. rewrite Hstep. tauto.
Qed.

Lemma wp_ret {S A : Type} (a : A) (post : A -> S -> G -> Prop) (s : S) (g : G) :
  post a s g -> wp mon E (ret a) post s g.
Proof. intro H. unfold wp. simpl. auto. Qed.

Lemma wp_raise {S A : Type} (e : exn) (post : A -> S -> G -> Prop) (s : S) (g : G) :
  E e -> wp mon E (raise e) post s g.
Proof. intro H. unfold wp. simpl. auto. Qed.

Lemma wp_out_of_fuel {S A : Type} (post : A -> S -> G -> Prop) (s : S) (g : G) :
  wp mon E out_of_fuel post s g.
Proof. unfold wp. simpl. auto. Qed.

Lemma wp_mono {S A : Type} (m : M S A) (post post' : A -> S -> G -> Prop)
  (s : S) (g : G) :
  wp mon E m post s g ->
  (forall a s' g', post a s' g' -> post' a s' g') ->
  wp mon E m post' s g.
Proof.
  unfold wp. intros [Ha Hr] Hpost. split; [assumption|].
  destruct (result_of (m s)); auto.
Qed.

Lemma wp_bind {S A B : Type} (m : M S A) (k : A -> M S B)
  (post : B -> S -> G -> Prop) (s : S) (g : G) :
  wp mon E m (fun a s' g' => wp mon E (k a) post s' g') s g ->
  wp mon E (bind m k) post s g.
Proof.
  unfold wp, bind.
  destruct (m s) as [[[a| |] s1] t1]; unfold trace_of, state_of, result_of;
    simpl; auto.
  intros [Ht1 [Ht2 Hr]].
  destruct (k a s1) as [[r s2] t2]; simpl in *.
  split; [apply accepts_app; auto|].
  rewrite advance_app. assumption.
Qed.

Lemma wp_bind_run {S A B : Type} (m : M S A) (k : A -> M S B)
  (post : B -> S -> G -> Prop) (s s1 : S) (g : G) (a : A) (t1 : list event) :
  m s = (Ok a, s1, t1) ->
  accepts mon g t1 ->
  wp mon E (k a) post s1 (advance mon g t1) ->
  wp mon E (bind m k) post s g.
Proof.
  intros Em Ht Hk. apply wp_bind. unfold wp at 1. rewrite Em. simpl. auto.
Qed.

Lemma wp_keeps {T A : Type} (f : DDPGAgent -> T) (C : event -> bool)
  (X : exn -> Prop) (m : M World A) (post : A -> World -> G -> Prop)
  (w : World) (g : G) :
  keeps f C X m -> ignores mon C -> (forall e, X e -> E e) ->
  (forall a w', f (agent w') = f (agent w) -> post a w' g) ->
  wp mon E m post w g.
Proof.
  intros Hk Hi HX Hpost. destruct (Hk w) as (Ht & Hf & Hr).
  destruct (ignored_trace C g _ Hi Ht) as [Hacc Hadv].
  unfold wp. split; [assumption|]. rewrite Hadv.
  destruct (result_of (m w)); auto.
Qed.

End WP.

Lemma lag_ignores_calm : ignores lag_monitor calm.
Proof. intros e g He. destruct e; try discriminate; simpl; auto. Qed.

Lemma lag_ignores_quiet : ignores lag_monitor quiet.
Proof. intros e g He. destruct e; try discriminate; simpl; auto. Qed.

Lemma sample_ignores_quiet : ignores sample_monitor quiet.
Proof. intros e g He. destruct e; try discriminate; simpl; auto. Qed.

(** ** The procedures of the training loop *)

Lemma update_model_keeps : keeps loop_state calm any_exn update_model.
Proof.
  unfold update_model, get_memory, optimize.
  keeps_auto.
Qed.

Lemma learn_keeps (n : nat) (losses : list (Q * Q)) :
  keeps loop_state calm any_exn (learn n losses).
Proof.
  revert losses; induction n as [|n IH]; intro losses; simpl.
  - apply keeps_ret.
  - apply keeps_bind; [apply update_model_keeps|]. intro loss. apply IH.
Qed.

Lemma time_time_keeps : keeps loop_state quiet no_exn time_time.
Proof. unfold time_time. keeps_auto. Qed.

Lemma write_log_keeps (i : Z) (loss : Q * Q) (score avg : Q) :
  keeps loop_state quiet no_exn (write_log i loss score avg).
Proof. unfold write_log, print. keeps_auto. Qed.

Lemma save_params_keeps (n : Z) :
  keeps loop_state quiet no_exn (save_params Agent_save_params n).
Proof. unfold save_params. keeps_auto. Qed.

Lemma interim_test_keeps :
  keeps loop_state quiet no_exn (interim_test Agent_interim_test).
Proof. unfold interim_test. keeps_auto. Qed.

(** What one call of [step] does. *)
Lemma step_run (action : tensor) (w : World) :
  let self := agent w in
  let out := env_step (env (host w)) action in
  let next_state := fst (fst (fst out)) in
  let reward := snd (fst (fst out)) in
  let done := snd (fst out) in
  let h' := set_env (snd out) (host w) in
  let done_bool :=
    if episode_step self =? max_episode_steps (args self) then false else done in
  let check :=
    EvTruncationCheck (episode_step self) (max_episode_steps (args self))
      done done_bool in
  step action w =
    if test (args self) then
      (Ok (next_state, reward, done), {| agent := self; host := h' |}, [EvEnvStep])
    else
      match memory self with
      | Some m =>
          (Ok (next_state, reward, done),
           {| agent :=
                set_memory
                  (Some (ReplayBuffer_add
                           {| t_state := curr_state self; t_action := action;
                              t_reward := reward; t_next_state := next_state;
                              t_done := done_bool |} m)) self;
              host := h' |},
           [EvEnvStep; check; EvMemoryAdd done_bool])
      | None =>
          (Raise (AttributeError "memory"), {| agent := self; host := h' |},
           [EvEnvStep; check])
      end.
Proof.
  destruct w as [self h]. cbv zeta.
  unfold step, _add_transition_to_memory, get_memory, bind, emit, get_host,
    get_self, update_host, update_self, modify, ret, raise.
  simpl.
  destruct (env_step (env h) action) as [[[next_state reward] done] e'].
  simpl.
  destruct (test (args self)); simpl; [reflexivity|].
  destruct (memory self) as [m|]; reflexivity.
Qed.

Lemma step_lag (action : tensor) (w : World) :
  wp lag_monitor any_exn (step action)
    (fun _ w' g' =>
       episode_step (agent w') = episode_step (agent w) /\
       g' = episode_step (agent w) + 1)
    w (episode_step (agent w)).
Proof.
  unfold wp. rewrite step_run.
  destruct (test (args (agent w))); [|destruct (memory (agent w))];
    unfold trace_of, result_of, state_of, any_exn; simpl;
    repeat split; auto; lia.
Qed.

Ltac wp_run := eapply wp_bind_run; [reflexivity | simpl; auto | simpl].

Lemma loop_state_episode_step (a b : DDPGAgent) :
  loop_state a = loop_state b -> episode_step a = episode_step b.
Proof. unfold loop_state. intro H. now inversion H. Qed.

Lemma train_step_lag (state : tensor) (score : Q) (losses : list (Q * Q))
  (w : World) :
  wp lag_monitor any_exn (train_step state score losses)
    (fun _ w' g' =>
       episode_step (agent w') = episode_step (agent w) + 1 /\
       g' = episode_step (agent w) + 1)
    w (episode_step (agent w)).
Proof.
  unfold train_step.
  wp_run.
  apply wp_bind.
  apply wp_mono with
    (post := fun (_ : unit) w' g' => w' = w /\ g' = episode_step (agent w)).
  { destruct (render (args (agent w)) && (render_after (args (agent w)) <=? i_episode (agent w)));
      unfold wp; simpl; auto. }
  intros _ w0 g0 [-> ->].
  apply wp_bind.
  eapply wp_keeps;
    [apply select_action_keeps | apply lag_ignores_quiet | intros e []|].
  intros action w1 H1. apply loop_state_episode_step in H1.
  apply wp_bind. rewrite <- H1.
  eapply wp_mono; [apply step_lag|].
  intros [[next_state reward] done] w2 g2 [H2 ->].
  wp_run. wp_run.
  apply wp_bind. unfold get_memory. wp_run.
  unfold advance; simpl.
  destruct (memory (agent w2)) as [m|];
    [apply wp_ret | apply wp_raise; exact I].
  wp_run.
  apply wp_bind.
  match goal with
  | |- wp _ _ (if ?c then _ else _) _ ?w3 _ =>
      apply wp_mono with
        (post := fun (_ : list (Q * Q)) w' g' =>
                   episode_step (agent w') = episode_step (agent w1) + 1 /\
                   g' = episode_step (agent w1) + 1);
      [destruct c|]
  end.
  - eapply wp_keeps;
      [apply learn_keeps | apply lag_ignores_calm | intros e _; exact I|].
    intros a w' Hf. apply loop_state_episode_step in Hf. simpl in Hf.
    split; [lia|reflexivity].
  - apply wp_ret. simpl. split; [lia|reflexivity].
  - intros losses' w' g' [Hs ->]. apply wp_ret. auto.
Qed.

Lemma while_not_done_lag (fuel : nat) (state : tensor) (score : Q)
  (losses : list (Q * Q)) (w : World) :
  wp lag_monitor any_exn (while_not_done fuel state score losses)
    (fun _ w' g' => g' = episode_step (agent w'))
    w (episode_step (agent w)).
Proof.
  revert state score losses w.
  induction fuel as [|fuel IH]; intros state score losses w; simpl.
  - apply wp_out_of_fuel.
  - apply wp_bind.
    eapply wp_mono; [apply train_step_lag|].
    intros [[[next_state score'] losses'] done] w' g' [Hs ->].
    destruct done.
    + apply wp_ret. auto.
    + rewrite <- Hs. apply IH.
Qed.

(** A loop body that keeps an invariant is accepted by the monitor from
    every state of it. *)
Lemma for_each_wp {G A : Type} (mon : monitor G) (E : exn -> Prop)
  (Inv : World -> Prop) (body : A -> M World unit) (xs : list A) :
  (forall x w g, Inv w -> wp mon E (body x) (fun _ w' _ => Inv w') w g) ->
  forall w g, Inv w -> wp mon E (for_each xs body) (fun _ w' _ => Inv w') w g.
Proof.
  intro Hbody. induction xs as [|x xs IH]; intros w g Hw; simpl.
  - apply wp_ret. assumption.
  - apply wp_bind. eapply wp_mono; [apply Hbody; assumption|].
    intros u w' g' Hw'. apply IH. assumption.
Qed.

Ltac wp_quiet lemma ignore :=
  apply wp_bind;
  eapply wp_keeps; [apply lemma | apply ignore | intros ? []|].

Lemma episode_lag (fuel : nat) (i : Z) (w : World) (g : Z) :
  wp lag_monitor any_exn (episode Agent_save_params Agent_interim_test fuel i)
    (fun _ _ _ => True) w g.
Proof.
  unfold episode.
  wp_run. wp_run. wp_run.
  destruct (env_reset (env (host w))) as [state e'].
  wp_run. wp_run.
  wp_quiet time_time_keeps lag_ignores_quiet.
  intros t_begin w1 H1. apply loop_state_episode_step in H1. simpl in H1.
  apply wp_bind.
  pose proof (while_not_done_lag fuel state 0%Q [] w1) as Hloop.
  rewrite H1 in Hloop.
  eapply wp_mono; [exact Hloop|].
  intros [score losses] w2 g2 _.
  wp_quiet time_time_keeps lag_ignores_quiet.
  intros t_end w3 _.
  wp_run.
  apply wp_bind.
  apply wp_mono with (post := fun (_ : unit) (_ : World) (_ : Z) => True).
  { destruct losses as [|l ls]; [apply wp_ret; exact I|].
    eapply wp_keeps;
      [apply write_log_keeps | apply lag_ignores_quiet | intros ? [] | auto]. }
  intros _ w4 g4 _.
  destruct (save_period (args (agent w3)) =? 0); [apply wp_raise; exact I|].
  destruct (i_episode (agent w3) mod save_period (args (agent w3)) =? 0);
    [|apply wp_ret; exact I].
  wp_quiet save_params_keeps lag_ignores_quiet.
  intros _ w5 _.
  eapply wp_keeps;
    [apply interim_test_keeps | apply lag_ignores_quiet | intros ? [] | auto].
Qed.

Lemma train_lag (fuel : nat) (w : World) (g : Z) :
  wp lag_monitor any_exn (train Agent_save_params Agent_interim_test fuel)
    (fun _ _ _ => True) w g.
Proof.
  unfold train, pretrain.
  wp_run.
  apply wp_bind.
  apply wp_mono with (post := fun (_ : unit) (_ : World) (_ : Z) => True).
  { destruct (log (args (agent w))); unfold wp; simpl; auto. }
  intros _ w1 g1 _.
  wp_run.
  apply wp_bind.
  eapply wp_mono.
  { apply for_each_wp with (Inv := fun _ => True); [|exact I].
    intros i w' g' _. apply episode_lag. }
  intros _ w2 g2 _.
  wp_run. wp_run.
  wp_quiet save_params_keeps lag_ignores_quiet.
  intros _ w3 _.
  eapply wp_keeps;
    [apply interim_test_keeps | apply lag_ignores_quiet | intros ? [] | auto].
Qed.

(** C9.  In the trace of [train], every truncation check of [step] sees
    [episode_step] equal to the number of environment steps of the current
    episode taken before the step it belongs to: on the k-th step of an
    episode the comparison is with k - 1.  The counter is incremented by the
    loop once [step] has returned. *)
Theorem C9_truncation_check_lags (fuel : nat) (w : World) :
  (forall (before after : list event) (es cap : Z) (done done_bool : bool),
      trace_of (train Agent_save_params Agent_interim_test fuel w) =
        before ++ EvTruncationCheck es cap done done_bool :: after ->
      es = steps_in_episode before - 1) /\
  (forall (state : tensor) (score : Q) (losses : list (Q * Q)) x,
      let r := train_step state score losses w in
      result_of r = Ok x ->
      episode_step (agent (state_of r)) = episode_step (agent w) + 1).
Proof.
  split.
  - intros before after es cap done done_bool Htr.
    destruct (train_lag fuel w 0) as [Hacc _].
    rewrite Htr in Hacc. apply accepts_app in Hacc.
    destruct Hacc as [_ [[Hcheck _] _]]. exact Hcheck.
  - intros state score losses x r Hx. subst r.
    destruct (train_step_lag state score losses w) as [_ Hr].
    rewrite Hx in Hr. tauto.
Qed.

(** ** Sampling in the training loop *)

Lemma accepts_sample_ok (g : nat) (tr : list event) :
  accepts sample_monitor g tr -> Forall sample_ok tr.
Proof.
  revert g; induction tr as [|e tr IH]; intros g H; simpl in *; [constructor|].
  destruct H as [He Htr]. constructor; [assumption|]. eapply IH, Htr.
Qed.

Lemma advance_n_samples (g : nat) (tr : list event) :
  advance sample_monitor g tr = (n_samples tr + g)%nat.
Proof.
  unfold advance, n_samples.
  revert g; induction tr as [|e tr IH]; intro g; simpl; [reflexivity|].
  rewrite IH. destruct (is_sample e); simpl; lia.
Qed.

Lemma loop_state_wf (a b : DDPGAgent) :
  loop_state a = loop_state b -> wf b -> wf a.
Proof.
  unfold loop_state, wf, batch_size. intros H Hb m Hm.
  inversion H as [[He Hmem Hp Ha]]. rewrite Hp. apply Hb. congruence.
Qed.

Lemma update_model_samples (w : World) (m : ReplayBuffer) (g : nat) :
  memory (agent w) = Some m ->
  rb_batch_size m <= ReplayBuffer_len m ->
  wp sample_monitor not_contract_violation update_model
    (fun _ w' g' => loop_state (agent w') = loop_state (agent w) /\ g' = S g)
    w g.
Proof.
  intros Hm Hlen. unfold wp.
  pose proof (update_model_run w m Hm Hlen) as E. cbv zeta in E. rewrite E.
  unfold trace_of, result_of, state_of. simpl. repeat split; auto.
Qed.

Lemma learn_samples (n : nat) (losses : list (Q * Q)) (w : World)
  (m : ReplayBuffer) (g : nat) :
  memory (agent w) = Some m ->
  rb_batch_size m <= ReplayBuffer_len m ->
  wp sample_monitor not_contract_violation (learn n losses)
    (fun _ w' g' =>
       loop_state (agent w') = loop_state (agent w) /\ g' = (n + g)%nat)
    w g.
Proof.
  revert losses w g; induction n as [|n IH]; intros losses w g Hm Hlen; simpl.
  - apply wp_ret. auto.
  - apply wp_bind.
    eapply wp_mono; [apply (update_model_samples w m g Hm Hlen)|].
    intros loss w1 g1 [H1 ->].
    assert (memory (agent w1) = Some m) as Hm1.
    { unfold loop_state in H1. inversion H1. congruence. }
    eapply wp_mono; [apply (IH (losses ++ [loss]) w1 (S g) Hm1 Hlen)|].
    intros losses' w2 g2 [H2 ->]. split; [congruence|lia].
Qed.

Lemma step_samples (action : tensor) (w : World) (g : nat) :
  wp sample_monitor not_contract_violation (step action)
    (fun _ w' g' =>
       params (agent w') = params (agent w) /\
       (wf (agent w) -> wf (agent w')) /\ g' = g)
    w g.
Proof.
  unfold wp. rewrite step_run.
  destruct (test (args (agent w))); [|destruct (memory (agent w)) as [m|] eqn:Em];
    unfold trace_of, result_of, state_of, not_contract_violation; simpl;
    repeat split; auto; try discriminate.
  intros Hwf m' Hm'. unfold wf, batch_size in *. simpl in *.
  inversion Hm'; subst m'. simpl. apply Hwf. assumption.
Qed.

Lemma train_step_samples (state : tensor) (score : Q) (losses : list (Q * Q))
  (w : World) (g : nat) :
  wf (agent w) ->
  wp sample_monitor not_contract_violation (train_step state score losses)
    (fun _ w' g' =>
       wf (agent w') /\
       exists m',
         memory (agent w') = Some m' /\
         g' = ((if (batch_size (agent w') <=? ReplayBuffer_len m')%Z
                then Z.to_nat (multiple_learn (agent w')) else 0) + g)%nat)
    w g.
Proof.
  intro Hwf. unfold train_step.
  wp_run.
  apply wp_bind.
  apply wp_mono with (post := fun (_ : unit) w' g' => w' = w /\ g' = g).
  { destruct (render (args (agent w)) && (render_after (args (agent w)) <=? i_episode (agent w)));
      unfold wp; simpl; auto. }
  intros u w0 g0 [-> ->].
  apply wp_bind.
  eapply wp_keeps;
    [apply select_action_keeps | apply sample_ignores_quiet | intros e []|].
  intros action w1 H1. apply loop_state_wf in H1; [|assumption].
  apply wp_bind.
  eapply wp_mono; [apply step_samples|].
  intros [[next_state reward] done] w2 g2 (Hp & Hwf2 & ->).
  specialize (Hwf2 H1).
  wp_run. wp_run.
  apply wp_bind. unfold get_memory. wp_run.
  unfold advance; simpl.
  destruct (memory (agent w2)) as [m|] eqn:Em;
    [apply wp_ret | apply wp_raise; discriminate].
  wp_run.
  apply wp_bind.
  match goal with
  | |- wp _ _ _ _ ?w3 _ =>
      apply wp_mono with
        (post := fun (_ : list (Q * Q)) w' g' =>
                   loop_state (agent w') = loop_state (agent w3) /\
                   g' = ((if (batch_size (agent w2) <=? ReplayBuffer_len m)%Z
                          then Z.to_nat (multiple_learn (agent w2)) else 0)
                         + g)%nat)
  end.
  - unfold advance, batch_size, multiple_learn. simpl.
    destruct (p_batch_size (params (agent w2)) <=? ReplayBuffer_len m) eqn:Eg.
    + apply learn_samples with (m := m); [exact Em|].
      rewrite (Hwf2 m Em). apply Z.leb_le. exact Eg.
    + apply wp_ret. auto.
  - intros losses' w4 g4 [H4 ->]. apply wp_ret.
    unfold loop_state in H4. simpl in H4.
    inversion H4 as [[He Hmem Hpar Harg]].
    split.
    + intros m' Hm'. unfold batch_size. rewrite Hpar. apply Hwf2. congruence.
    + exists m. unfold batch_size, multiple_learn. rewrite Hpar.
      split; [congruence|reflexivity].
Qed.

Lemma while_not_done_samples (fuel : nat) (state : tensor) (score : Q)
  (losses : list (Q * Q)) (w : World) (g : nat) :
  wf (agent w) ->
  wp sample_monitor not_contract_violation
    (while_not_done fuel state score losses)
    (fun _ w' _ => wf (agent w')) w g.
Proof.
  revert state score losses w g.
  induction fuel as [|fuel IH]; intros state score losses w g Hwf; simpl.
  - apply wp_out_of_fuel.
  - apply wp_bind.
    eapply wp_mono; [apply train_step_samples; assumption|].
    intros [[[next_state score'] losses'] done] w' g' [Hwf' _].
    destruct done.
    + apply wp_ret. assumption.
    + apply IH. assumption.
Qed.

Ltac wp_wf lemma :=
  apply wp_bind;
  eapply wp_keeps; [apply lemma | apply sample_ignores_quiet | intros ? []|];
  let H := fresh "Hf" in
  intros ? ? H; apply loop_state_wf in H; [|assumption].

Lemma episode_samples (fuel : nat) (i : Z) (w : World) (g : nat) :
  wf (agent w) ->
  wp sample_monitor not_contract_violation
    (episode Agent_save_params Agent_interim_test fuel i)
    (fun _ w' _ => wf (agent w')) w g.
Proof.
  intro Hwf. unfold episode.
  wp_run. wp_run. wp_run.
  destruct (env_reset (env (host w))) as [state e'].
  wp_run. wp_run.
  match goal with
  | |- wp _ _ _ _ ?w0 _ => assert (wf (agent w0)) as Hwf0 by exact Hwf
  end.
  wp_wf time_time_keeps.
  apply wp_bind.
  eapply wp_mono; [apply while_not_done_samples; assumption|].
  intros [score losses] w2 g2 Hwf2.
  wp_wf time_time_keeps.
  wp_run.
  apply wp_bind.
  apply wp_mono with (post := fun (_ : unit) w' (_ : nat) => wf (agent w')).
  { destruct losses as [|l ls]; [apply wp_ret; assumption|].
    eapply wp_keeps;
      [apply write_log_keeps | apply sample_ignores_quiet | intros ? [] |].
    intros ? ? Hf'. eapply loop_state_wf; eassumption. }
  intros u w4 g4 Hwf4.
  match goal with
  | |- wp _ _ (if ?c then _ else _) _ _ _ => destruct c
  end; [apply wp_raise; discriminate|].
  match goal with
  | |- wp _ _ (if ?c then _ else _) _ _ _ => destruct c
  end; [|apply wp_ret; assumption].
  wp_wf save_params_keeps.
  eapply wp_keeps;
    [apply interim_test_keeps | apply sample_ignores_quiet | intros ? [] |].
  intros ? ? Hf'. eapply loop_state_wf; eassumption.
Qed.

Lemma train_samples (fuel : nat) (w : World) (g : nat) :
  wf (agent w) ->
  wp sample_monitor not_contract_violation
    (train Agent_save_params Agent_interim_test fuel)
    (fun _ w' _ => wf (agent w')) w g.
Proof.
  intro Hwf. unfold train, pretrain.
  wp_run.
  apply wp_bind.
  apply wp_mono with (post := fun (_ : unit) w' (_ : nat) => wf (agent w')).
  { destruct (log (args (agent w))); unfold wp; simpl; auto. }
  intros u w1 g1 Hwf1.
  wp_run.
  apply wp_bind.
  eapply wp_mono.
  { apply for_each_wp with (Inv := fun w' => wf (agent w')); [|assumption].
    intros i w' g' Hw'. apply episode_samples. assumption. }
  intros u2 w2 g2 Hwf2.
  wp_run. wp_run.
  wp_wf save_params_keeps.
  eapply wp_keeps;
    [apply interim_test_keeps | apply sample_ignores_quiet | intros ? [] |].
  intros ? ? Hf'. eapply loop_state_wf; eassumption.
Qed.

(** C5.  For an agent whose buffer draws batches of the agent's
    [batch_size]: every call of [sample] that [train] makes, one per call of
    [update_model], finds at least [batch_size] transitions in the buffer, so
    that [train] never fails on the sampling precondition; and an iteration
    of the step loop that completes has called [update_model] exactly
    [multiple_learn] times if the buffer then holds at least [batch_size]
    transitions, and not at all otherwise. *)
Theorem C5_updates_guarded (w : World) :
  wf (agent w) ->
  (forall fuel,
      let r := train Agent_save_params Agent_interim_test fuel w in
      Forall sample_ok (trace_of r) /\ result_of r <> Raise ContractViolation) /\
  (forall state score losses x,
      let r := train_step state score losses w in
      result_of r = Ok x ->
      Forall sample_ok (trace_of r) /\
      exists m',
        memory (agent (state_of r)) = Some m' /\
        n_samples (trace_of r) =
          if batch_size (agent (state_of r)) <=? ReplayBuffer_len m'
          then Z.to_nat (multiple_learn (agent (state_of r)))
          else 0%nat).
Proof.
  intro Hwf. split.
  - intros fuel r. subst r.
    destruct (train_samples fuel w 0%nat Hwf) as [Hacc Hr].
    split; [eapply accepts_sample_ok; eassumption|].
    intro Hraise. rewrite Hraise in Hr. apply Hr. reflexivity.
  - intros state score losses x r Hx. subst r.
    destruct (train_step_samples state score losses w 0%nat Hwf) as [Hacc Hr].
    split; [eapply accepts_sample_ok; eassumption|].
    rewrite Hx in Hr. destruct Hr as (_ & m' & Hm' & Hg).
    exists m'. split; [assumption|].
    rewrite advance_n_samples in Hg. lia.
Qed.

(** ** The stored flag *)

(** In training mode [step] stores the flag of the environment unless
    [episode_step] equals [max_episode_steps] when it is called. *)
Lemma step_stored_flag (action : tensor) (w : World) (m : ReplayBuffer) :
  test (args (agent w)) = false ->
  memory (agent w) = Some m ->
  let out := env_step (env (host w)) action in
  let done := snd (fst out) in
  exists t,
    memory (agent (state_of (step action w))) = Some (ReplayBuffer_add t m) /\
    t_done t =
      if episode_step (agent w) =? max_episode_steps (args (agent w))
      then false else done.
Proof.
  intros Htest Hm. cbv zeta. rewrite step_run, Htest, Hm.
  eexists. split; reflexivity.
Qed.

(** Within the first [cap] steps of an episode the check never fires: the
    flag stored is the flag of the environment, truncation included. *)
Lemma train_flag_within_cap (fuel : nat) (w : World) (before after : list event)
  (es cap : Z) (done done_bool : bool) :
  trace_of (train Agent_save_params Agent_interim_test fuel w) =
    before ++ EvTruncationCheck es cap done done_bool :: after ->
  steps_in_episode before <= cap ->
  done_bool = done.
Proof.
  intros Htr Hcap.
  destruct (train_lag fuel w 0) as [Hacc _].
  rewrite Htr in Hacc. apply accepts_app in Hacc.
  destruct Hacc as [_ [[Hes Hflag] _]].
  change (advance lag_monitor 0 before) with (steps_in_episode before) in Hes.
  rewrite Hflag.
  destruct (es =? cap) eqn:E; [|reflexivity].
  apply Z.eqb_eq in E. lia.
Qed.

(** Construction yields an agent whose buffer draws batches of the agent's
    [batch_size]. *)
Lemma DDPGAgent_init_wf (args0 : Namespace) (params0 : HyperParams)
  (network_cfg0 : NetworkCfg) (optim_cfg0 : OptimCfg) (noise_cfg : NoiseCfg)
  (h : Host) (self : DDPGAgent) :
  result_of (DDPGAgent_init args0 params0 network_cfg0 optim_cfg0 noise_cfg h) =
    Ok self ->
  wf self.
Proof.
  unfold DDPGAgent_init, _initialize, bind, get.
  match goal with
  | |- context [_init_network ?a h] =>
      destruct (_init_network_frame a h) as [_ F];
      destruct (_init_network a h) as [[[self0| |] h'] t]
  end; unfold result_of in *; cbn in F |- *; try discriminate.
  destruct (F self0 eq_refl) as (Hmem & _).
  destruct (test args0); cbn; intro Hr; inversion Hr; subst self.
  - intros m Hm. congruence.
  - intros m Hm. cbn in Hm. inversion Hm. reflexivity.
Qed.

End Properties.

(** * Further properties *)

Section MoreProperties.

Context {gym : Gym} {rnd : Oracle} {torch : Torch}.
Variable Agent_save_params : checkpoint -> Z -> Host -> Host.
Variable Agent_interim_test : DDPGAgent -> Host -> tensor * Host.

Local Open Scope monad_scope.

(** ** Acting, in the three branches of [select_action] *)

Lemma select_action_warm_up_run (state : tensor) (w : World) :
  test (args (agent w)) = false ->
  total_step (agent w) < initial_random_action (agent w) ->
  let sample := action_space_sample (env (host w)) in
  select_action state w =
    (Ok (fst sample),
     {| agent := set_curr_state state (agent w);
        host := set_env (snd sample) (host w) |},
     [EvActionSpaceSample]).
Proof.
  intros Htest Hwarm. destruct w as [self h].
  unfold initial_random_action in *. simpl in *.
  apply Z.ltb_lt in Hwarm.
  unfold select_action, bind, update_self, update_host, modify, get_self,
    get_host, emit, ret.
  simpl. unfold initial_random_action. simpl. rewrite Htest, Hwarm. simpl.
  destruct (action_space_sample (env h)) as [a e']. reflexivity.
Qed.

Lemma select_action_explore_run (state : tensor) (w : World) :
  test (args (agent w)) = false ->
  initial_random_action (agent w) <= total_step (agent w) ->
  let drawn := OUNoise_sample (noise (agent w)) (rng (host w)) in
  select_action state w =
    (Ok (map (clip1 (-1) 1)
           (zip_with Qplus (forward (actor (agent w)) state) (fst (fst drawn)))),
     {| agent := set_noise (snd (fst drawn)) (set_curr_state state (agent w));
        host := set_rng (snd drawn) (host w) |},
     [EvNoiseSample]).
Proof.
  intros Htest Hlate. destruct w as [self h].
  unfold initial_random_action in *. simpl in *.
  apply Z.ltb_ge in Hlate.
  unfold select_action, bind, update_self, update_host, modify, get_self,
    get_host, emit, ret.
  simpl. unfold initial_random_action. simpl. rewrite Htest, Hlate. simpl.
  destruct (OUNoise_sample (noise self) (rng h)) as [[x n'] o']. reflexivity.
Qed.

(** X1.  During the warm-up of a training run ([total_step] below
    [initial_random_action]) [select_action] returns the sample of the action
    space of the environment: it evaluates neither the actor nor the noise
    process, leaves the noise state and the random source as they were, and
    two agents on the same environment return the same action whatever
    their networks. *)
Theorem X1_select_action_warm_up (state : tensor) (w : World) :
  test (args (agent w)) = false ->
  total_step (agent w) < initial_random_action (agent w) ->
  let r := select_action state w in
  result_of r = Ok (fst (action_space_sample (env (host w)))) /\
  trace_of r = [EvActionSpaceSample] /\
  noise (agent (state_of r)) = noise (agent w) /\
  rng (host (state_of r)) = rng (host w) /\
  (forall state2 w2,
      test (args (agent w2)) = false ->
      total_step (agent w2) < initial_random_action (agent w2) ->
      env (host w2) = env (host w) ->
      result_of (select_action state2 w2) = result_of r).
Proof.
  intros Htest Hwarm r. subst r.
  rewrite (select_action_warm_up_run state w Htest Hwarm).
  unfold result_of, trace_of, state_of. simpl.
  repeat split; try reflexivity.
  intros state2 w2 Htest2 Hwarm2 Henv.
  rewrite (select_action_warm_up_run state2 w2 Htest2 Hwarm2). simpl.
  now rewrite Henv.
Qed.

Lemma clip1_between (lo hi x : Q) : (lo <= hi -> lo <= clip1 lo hi x <= hi)%Q.
Proof.
  intro H. unfold clip1. split.
  - apply Q.min_glb; [assumption|apply Q.le_max_l].
  - apply Q.le_min_l.
Qed.

(** X2.  After the warm-up of a training run [select_action] returns
    [clip(actor(state) + noise, -1, 1)]: every component of the action lies
    in [-1,1] whatever the actor computes, the noise process is sampled
    once, and the environment is not touched. *)
Theorem X2_select_action_explores_within_bounds (state : tensor) (w : World) :
  test (args (agent w)) = false ->
  initial_random_action (agent w) <= total_step (agent w) ->
  let r := select_action state w in
  let drawn := OUNoise_sample (noise (agent w)) (rng (host w)) in
  exists action,
    result_of r = Ok action /\
    action = map (clip1 (-1) 1)
               (zip_with Qplus (forward (actor (agent w)) state) (fst (fst drawn))) /\
    Forall (fun x => -1 <= x <= 1)%Q action /\
    trace_of r = [EvNoiseSample] /\
    noise (agent (state_of r)) = snd (fst drawn) /\
    env (host (state_of r)) = env (host w).
Proof.
  intros Htest Hlate r drawn. subst r drawn.
  rewrite (select_action_explore_run state w Htest Hlate).
  unfold result_of, trace_of, state_of. simpl.
  eexists. split; [reflexivity|]. split; [reflexivity|].
  split; [|repeat split; reflexivity].
  apply Forall_map. apply Forall_forall. intros x _.
  apply clip1_between. discriminate.
Qed.

(** X3.  Whatever the mode, [select_action] returns an action, records the
    state it was asked about as [curr_state], and changes neither the
    counters, the configuration, the networks, the optimizers nor the
    buffer; it prints nothing and does not touch the disk. *)
Theorem X3_select_action_records_state (state : tensor) (w : World) :
  let r := select_action state w in
  (exists action, result_of r = Ok action) /\
  curr_state (agent (state_of r)) = state /\
  outside_acting (agent (state_of r)) = outside_acting (agent w) /\
  stdout (host (state_of r)) = stdout (host w) /\
  disk (host (state_of r)) = disk (host w).
Proof.
  cbv zeta.
  destruct (test (args (agent w))) eqn:Htest.
  - rewrite (select_action_test_run state w Htest).
    unfold result_of, state_of. simpl. repeat split; eauto.
  - destruct (Z.lt_ge_cases (total_step (agent w)) (initial_random_action (agent w)))
      as [Hwarm|Hlate].
    + rewrite (select_action_warm_up_run state w Htest Hwarm).
      unfold result_of, state_of. simpl. repeat split; eauto.
    + rewrite (select_action_explore_run state w Htest Hlate).
      unfold result_of, state_of. simpl. repeat split; eauto.
Qed.

(** ** Stepping the environment *)

(** X4.  When [step] returns, it returns what the environment returned,
    the flag [done] included even where the stored flag differs, and the
    environment has advanced by that one step; in test mode the agent is
    unchanged and nothing is stored. *)
Theorem X4_step_returns_environment_response (action : tensor) (w : World) :
  let r := step action w in
  let out := env_step (env (host w)) action in
  (forall x, result_of r = Ok x -> x = fst out) /\
  env (host (state_of r)) = snd out /\
  (test (args (agent w)) = true ->
   result_of r = Ok (fst out) /\ agent (state_of r) = agent w /\
   trace_of r = [EvEnvStep]).
Proof.
  cbv zeta. rewrite step_run.
  destruct (env_step (env (host w)) action) as [[[next_state reward] done] e'].
  simpl.
  destruct (test (args (agent w))); [|destruct (memory (agent w))];
    unfold result_of, state_of, trace_of; simpl; repeat split;
    try discriminate; try (intros x Hx; now inversion Hx).
Qed.

(** X5.  In training mode, asking for an action about [state] and stepping
    the environment with it stores one transition: from [state], by the
    action returned, to the next state and with the reward of the
    environment. *)
Theorem X5_transition_pairs_state_and_action (state : tensor) (w : World)
  (m : ReplayBuffer) :
  test (args (agent w)) = false ->
  memory (agent w) = Some m ->
  let r := (action <- select_action state ;; step action) w in
  exists action next_state reward done flag,
    result_of (select_action state w) = Ok action /\
    result_of r = Ok (next_state, reward, done) /\
    memory (agent (state_of r)) =
      Some (ReplayBuffer_add
              {| t_state := state; t_action := action; t_reward := reward;
                 t_next_state := next_state; t_done := flag |} m) /\
    flag = (if episode_step (agent w) =? max_episode_steps (args (agent w))
            then false else done).
Proof.
  intros Htest Hm. cbv zeta.
  destruct (X3_select_action_records_state state w)
    as ([action Ha] & Hcurr & Hout & _).
  unfold bind.
  destruct (select_action state w) as [[[a| |] w1] t1];
    unfold result_of, state_of in *; simpl in Ha, Hcurr, Hout; try discriminate.
  inversion Ha; subst a. unfold outside_acting in Hout.
  inversion Hout as [[Hargs Htot Hes Hie Hpar Hac Hat Hcr Hct Hao Hco Hmem]].
  rewrite step_run, Hargs, Htest, Hmem, Hm, Hes, Hcurr.
  destruct (env_step (env (host w1)) action) as [[[next_state reward] done] e'].
  simpl. do 5 eexists. repeat split; reflexivity.
Qed.

(** ** Updating *)

(** X6.  A call of [update_model] that raises does so while sampling: either
    the agent has no buffer or the buffer is too short.  The world is then
    exactly as before the call, and no optimizer has stepped. *)
Theorem X6_update_model_fails_before_learning (w : World) (e : exn) :
  result_of (update_model w) = Raise e ->
  state_of (update_model w) = w /\
  (e = AttributeError "memory" /\ memory (agent w) = None \/
   e = ContractViolation /\
   exists m, memory (agent w) = Some m /\ ReplayBuffer_len m < rb_batch_size m) /\
  (forall n max_norm, ~ In (EvOptimStep n max_norm) (trace_of (update_model w))) /\
  (forall n, ~ In (EvSoftUpdate n) (trace_of (update_model w))).
Proof.
  destruct (memory (agent w)) as [m|] eqn:Em.
  - destruct (Z.le_gt_cases (rb_batch_size m) (ReplayBuffer_len m)) as [Hlen|Hlen].
    + pose proof (update_model_run w m Em Hlen) as E. cbv zeta in E.
      rewrite E. discriminate.
    + assert (update_model w =
                (Raise ContractViolation, w,
                 [EvMemorySample (ReplayBuffer_len m) (rb_batch_size m)])) as E.
      { destruct w as [self h]. simpl in Em.
        unfold update_model, get_memory, bind, get_self, get_host, ret, emit.
        simpl. rewrite Em. simpl. unfold ReplayBuffer_sample.
        apply Z.leb_gt in Hlen. rewrite Hlen. reflexivity. }
      rewrite E. unfold result_of, state_of, trace_of. simpl.
      intro He. inversion He; subst e.
      split; [reflexivity|]. split; [right; eauto|].
      split; intros; intros [H|[]]; discriminate.
  - assert (update_model w = (Raise (AttributeError "memory"), w, [])) as E.
    { destruct w as [self h]. simpl in Em.
      unfold update_model, get_memory, bind, get_self, raise.
      simpl. rewrite Em. reflexivity. }
    rewrite E. unfold result_of, state_of, trace_of. simpl.
    intro He. inversion He; subst e.
    split; [reflexivity|]. split; [left; auto|].
    split; intros; intros [].
Qed.

(** X7.  Whether it returns or raises, [update_model] changes the weights
    of the four networks, the two optimizers and the random source only:
    the buffer, the counters, the last state, the noise process, the
    configuration, the shapes of the networks, the environment, the console
    and the disk are as they were. *)
Theorem X7_update_model_touches_networks_only (w : World) :
  let r := update_model w in
  let self := agent w in
  let self' := agent (state_of r) in
  outside_networks self' = outside_networks self /\
  shape (actor self') = shape (actor self) /\
  shape (actor_target self') = shape (actor_target self) /\
  shape (critic self') = shape (critic self) /\
  shape (critic_target self') = shape (critic_target self) /\
  env (host (state_of r)) = env (host w) /\
  stdout (host (state_of r)) = stdout (host w) /\
  disk (host (state_of r)) = disk (host w) /\
  result_of r <> OutOfFuel.
Proof.
  cbv zeta.
  destruct (result_of (update_model w)) as [losses|e|] eqn:Er.
  - destruct (memory (agent w)) as [m|] eqn:Em.
    + destruct (Z.le_gt_cases (rb_batch_size m) (ReplayBuffer_len m)) as [Hlen|Hlen].
      * pose proof (update_model_run w m Em Hlen) as E. cbv zeta in E.
        rewrite E. unfold state_of. simpl.
        repeat split; try reflexivity; discriminate.
      * exfalso. destruct w as [self h]. simpl in Em.
        revert Er.
        unfold update_model, get_memory, bind, get_self, get_host, ret, emit.
        simpl. rewrite Em. simpl. unfold ReplayBuffer_sample.
        apply Z.leb_gt in Hlen. rewrite Hlen. discriminate.
    + exfalso. destruct w as [self h]. simpl in Em. revert Er.
      unfold update_model, get_memory, bind, get_self, raise.
      simpl. rewrite Em. discriminate.
  - destruct (X6_update_model_fails_before_learning w e Er) as [Hw _].
    rewrite Hw. repeat split; discriminate.
  - exfalso. destruct (update_model_keeps w) as (_ & _ & Hr).
    rewrite Er in Hr. exact Hr.
Qed.

(** ** Checkpoints *)

Lemma save_params_run (n_episode : Z) (w : World) :
  save_params Agent_save_params n_episode w =
    (Ok tt,
     {| agent := agent w;
        host := Agent_save_params (checkpoint_of (agent w)) n_episode (host w) |},
     [EvSaveParams n_episode]).
Proof. destruct w as [self h]. reflexivity. Qed.

Lemma load_params_restores (path : string) (w : World) (saved : DDPGAgent) :
  lookup path (disk (host w)) = Some (checkpoint_of saved) ->
  same_sizes saved (agent w) ->
  load_params path w =
    (Ok tt,
     {| agent := restored saved (agent w);
        host := set_stdout
                  (stdout (host w) ++
                   [Print ("[INFO] loaded the model and optimizer from " ++ path)])
                  (host w) |},
     []).
Proof.
  intros Hdisk (Ha & Hat & Hc & Hct). destruct w as [self h]. simpl in *.
  unfold load_params, bind, get_host. simpl.
  unfold os_path_exists. rewrite Hdisk. simpl.
  unfold load_state_dict, state_dict. simpl.
  rewrite Ha, Nat.eqb_refl. simpl.
  rewrite Hat, Nat.eqb_refl. simpl.
  rewrite Hc, Nat.eqb_refl. simpl.
  rewrite Hct, Nat.eqb_refl. simpl.
  reflexivity.
Qed.

(** X8.  Checkpoint round trip.  If the base class writes the dict it is
    given where [path] reads it, then after [save_params], whatever happens
    to the weights and the optimizers in between (the sizes of the networks
    and the file being kept), [load_params] returns with the four networks
    and the two optimizers as they were saved; it changes nothing else of
    the agent. *)
Theorem X8_checkpoint_round_trip (path : string) (n_episode : Z) (w w2 : World) :
  (forall ckpt h, lookup path (disk (Agent_save_params ckpt n_episode h)) = Some ckpt) ->
  disk (host w2) =
    disk (host (state_of (save_params Agent_save_params n_episode w))) ->
  same_sizes (agent w) (agent w2) ->
  let r := load_params path w2 in
  let saved := agent w in
  let self' := agent (state_of r) in
  result_of r = Ok tt /\
  weights (actor self') = weights (actor saved) /\
  weights (actor_target self') = weights (actor_target saved) /\
  weights (critic self') = weights (critic saved) /\
  weights (critic_target self') = weights (critic_target saved) /\
  actor_optim self' = actor_optim saved /\
  critic_optim self' = critic_optim saved /\
  outside_networks self' = outside_networks (agent w2).
Proof.
  intros Hwrites Hdisk Hsizes. cbv zeta.
  rewrite save_params_run in Hdisk. unfold state_of in Hdisk. simpl in Hdisk.
  assert (lookup path (disk (host w2)) = Some (checkpoint_of (agent w))) as Hl
      by (rewrite Hdisk; apply Hwrites).
  rewrite (load_params_restores path w2 (agent w) Hl Hsizes).
  unfold result_of, state_of. simpl. repeat split; reflexivity.
Qed.

(** X9.  Loading is not all-or-nothing.  On a checkpoint that holds the
    actor's state but not the target actor's, [load_params] raises
    [KeyError] after it has overwritten the weights of the live actor; the
    target actor and everything after it are as they were. *)
Theorem X9_load_incomplete_checkpoint (path : string) (w : World)
  (ckpt : checkpoint) (ws : list Q) :
  lookup path (disk (host w)) = Some ckpt ->
  lookup "actor_state_dict" ckpt = Some (StateDict ws) ->
  length ws = length (weights (actor (agent w))) ->
  lookup "actor_target_state_dict" ckpt = None ->
  let r := load_params path w in
  result_of r = Raise (KeyError "actor_target_state_dict") /\
  agent (state_of r) = set_actor (with_weights (actor (agent w)) ws) (agent w) /\
  host (state_of r) = host w.
Proof.
  intros Hdisk Hactor Hlen Htarget. destruct w as [self h]. simpl in *.
  unfold load_params, bind, get_host. simpl.
  unfold os_path_exists. rewrite Hdisk. simpl.
  unfold item. rewrite Hactor. simpl.
  unfold load_state_dict. rewrite Hlen, Nat.eqb_refl. simpl.
  rewrite Htarget. simpl. repeat split; reflexivity.
Qed.

(** The first missing key is reported and nothing is loaded. *)
Lemma load_params_without_actor (path : string) (w : World) (ckpt : checkpoint) :
  lookup path (disk (host w)) = Some ckpt ->
  lookup "actor_state_dict" ckpt = None ->
  load_params path w = (Raise (KeyError "actor_state_dict"), w, []).
Proof.
  intros Hdisk Hactor. destruct w as [self h]. simpl in *.
  unfold load_params, bind, get_host. simpl.
  unfold os_path_exists. rewrite Hdisk. simpl.
  unfold item. rewrite Hactor. reflexivity.
Qed.

(** ** Construction *)

Lemma _init_network_create_fresh (a : Attrs) (h : Host) :
  exists (self : DDPGAgent) (h' : Host),
    _init_network_create a h = (Ok self, h', network_creation) /\
    (stdout h' = stdout h /\ disk h' = disk h /\ env h' = env h) /\
    (total_step self = 0 /\ episode_step self = 0 /\ i_episode self = 0 /\
     curr_state self = [0%Q]) /\
    (actor_target self = actor self /\ critic_target self = critic self) /\
    shape (actor self) =
      (init_state_dim a, init_action_dim a,
       hidden_sizes_actor (init_network_cfg a), Tanh) /\
    shape (critic self) =
      (init_state_dim a + init_action_dim a, 1,
       hidden_sizes_critic (init_network_cfg a), Identity) /\
    length (weights (actor self)) =
      n_params (init_state_dim a
                :: hidden_sizes_actor (init_network_cfg a) ++ [init_action_dim a]) /\
    length (weights (critic self)) =
      n_params (init_state_dim a + init_action_dim a
                :: hidden_sizes_critic (init_network_cfg a) ++ [1]) /\
    (memory self = None /\ args self = init_args a /\ params self = init_params a /\
     noise self = init_noise a).
Proof.
  unfold _init_network_create, bind, state_dict.
  rewrite MLP_new_run. cbv zeta.
  rewrite MLP_new_run. cbv zeta.
  rewrite load_state_dict_same_shape
    by (cbn [weights]; rewrite !draws_length; reflexivity).
  rewrite MLP_new_run. cbv zeta.
  rewrite MLP_new_run. cbv zeta.
  rewrite load_state_dict_same_shape
    by (cbn [weights]; rewrite !draws_length; reflexivity).
  unfold optim_Adam, bind, emit, ret. cbn [app].
  do 2 eexists. split; [reflexivity|].
  cbn [stdout disk env set_rng total_step episode_step i_episode curr_state
       actor_target actor critic_target critic shape input_size output_size
       hidden_sizes output_activation weights memory args params noise].
  rewrite !draws_length.
  repeat split; reflexivity.
Qed.

(** X10.  Construction without a checkpoint to load ([load_from] unset, or
    naming a path that does not exist) returns an agent and prints nothing,
    not even the error line of [load_params]: the counters are zero, each
    target network equals its live network, the networks have the
    dimensions of the environment, and a training run gets an empty buffer
    of the configured sizes where a test run gets none. *)
Theorem X10_construction_without_checkpoint (args0 : Namespace)
  (params0 : HyperParams) (network_cfg0 : NetworkCfg) (optim_cfg0 : OptimCfg)
  (noise_cfg : NoiseCfg) (h : Host) :
  match load_from args0 with
  | Some path => os_path_exists path h = false
  | None => True
  end ->
  let r := DDPGAgent_init args0 params0 network_cfg0 optim_cfg0 noise_cfg h in
  let state_dim0 := observation_space_shape0 (env h) in
  let action_dim0 := action_space_shape0 (env h) in
  exists self,
    result_of r = Ok self /\
    trace_of r =
      network_creation ++ (if test args0 then [] else [EvNewReplayBuffer]) /\
    stdout (state_of r) = stdout h /\
    disk (state_of r) = disk h /\
    (total_step self = 0 /\ episode_step self = 0 /\ i_episode self = 0) /\
    (actor_target self = actor self /\ critic_target self = critic self) /\
    shape (actor self) =
      (state_dim0, action_dim0, hidden_sizes_actor network_cfg0, Tanh) /\
    shape (critic self) =
      (state_dim0 + action_dim0, 1, hidden_sizes_critic network_cfg0, Identity) /\
    memory self =
      (if test args0 then None
       else Some (ReplayBuffer_new (p_buffer_size params0) (p_batch_size params0))).
Proof.
  intros Hno. cbv zeta.
  unfold DDPGAgent_init, _initialize, _init_network, bind, get.
  match goal with
  | |- context [_init_network_create ?a h] =>
      destruct (_init_network_create_fresh a h)
        as (self & h' & E & (Hout & Hdisk & Henv) & (Ht & He & Hi & _)
            & (Hat & Hct) & Hsa & Hsc & _ & _ & (Hmem & Hargs & Hpar & _))
  end.
  rewrite E. cbn [init_args] in *.
  assert (match load_from args0 with
          | Some path =>
              if os_path_exists path h'
              then
                bind (as_self self (load_params path))
                  (fun r => ret (snd r))
              else ret self
          | None => ret self
          end h' = (Ok self, h', [])) as Enone.
  { destruct (load_from args0) as [path|]; [|reflexivity].
    unfold os_path_exists in *. rewrite Hdisk.
    destruct (lookup path (disk h)); [discriminate|reflexivity]. }
  unfold bind in Enone. rewrite Enone.
  unfold buffer_size, batch_size. rewrite Hpar.
  cbn [init_state_dim init_action_dim init_network_cfg init_params] in *.
  destruct (test args0); unfold emit, ret, result_of, trace_of, state_of;
    cbn; eexists; (split; [reflexivity|]);
    unfold shape in *; cbn; repeat split; auto.
Qed.

(** X11.  Construction with [load_from] naming a checkpoint saved by an
    agent whose networks have the sizes this configuration gives resumes
    from it: the agent returned has the weights of the four networks and
    the two optimizers that were saved, and one line reporting the load is
    printed. *)
Theorem X11_construction_resumes_from_checkpoint (args0 : Namespace)
  (params0 : HyperParams) (network_cfg0 : NetworkCfg) (optim_cfg0 : OptimCfg)
  (noise_cfg : NoiseCfg) (h : Host) (path : string) (saved : DDPGAgent) :
  load_from args0 = Some path ->
  lookup path (disk h) = Some (checkpoint_of saved) ->
  let state_dim0 := observation_space_shape0 (env h) in
  let action_dim0 := action_space_shape0 (env h) in
  let n_actor :=
    n_params (state_dim0 :: hidden_sizes_actor network_cfg0 ++ [action_dim0]) in
  let n_critic :=
    n_params (state_dim0 + action_dim0 :: hidden_sizes_critic network_cfg0 ++ [1]) in
  length (weights (actor saved)) = n_actor ->
  length (weights (actor_target saved)) = n_actor ->
  length (weights (critic saved)) = n_critic ->
  length (weights (critic_target saved)) = n_critic ->
  let r := DDPGAgent_init args0 params0 network_cfg0 optim_cfg0 noise_cfg h in
  exists self,
    result_of r = Ok self /\
    weights (actor self) = weights (actor saved) /\
    weights (actor_target self) = weights (actor_target saved) /\
    weights (critic self) = weights (critic saved) /\
    weights (critic_target self) = weights (critic_target saved) /\
    actor_optim self = actor_optim saved /\
    critic_optim self = critic_optim saved /\
    stdout (state_of r) =
      stdout h ++ [Print ("[INFO] loaded the model and optimizer from " ++ path)] /\
    (total_step self = 0 /\ episode_step self = 0 /\ i_episode self = 0).
Proof.
  intros Hfrom Hdisk state_dim0 action_dim0 n_actor n_critic Ha Hat Hc Hct.
  cbv zeta.
  unfold DDPGAgent_init, _initialize, _init_network, bind, get.
  match goal with
  | |- context [_init_network_create ?a h] =>
      destruct (_init_network_create_fresh a h)
        as (self & h' & E & (Hout & Hdisk' & Henv) & (Ht & He & Hi & _)
            & (Hta & Htc) & _ & _ & Hla & Hlc & (Hmem & Hargs & Hpar & _))
  end.
  rewrite E.
  cbn [init_args init_state_dim init_action_dim init_network_cfg init_params] in *.
  rewrite Hfrom.
  assert (lookup path (disk h') = Some (checkpoint_of saved)) as Hl
      by (rewrite Hdisk'; exact Hdisk).
  unfold os_path_exists. rewrite Hl.
  unfold as_self.
  rewrite (load_params_restores path {| agent := self; host := h' |} saved Hl).
  - cbn [agent host].
    destruct (test args0); unfold emit, ret, result_of, trace_of, state_of;
      cbn; rewrite Hout; eexists; (split; [reflexivity|]);
      cbn; repeat split; auto.
  - unfold same_sizes. cbn [agent]. rewrite Hta, Htc, Hla, Hlc.
    subst n_actor n_critic state_dim0 action_dim0. auto.
Qed.


(** ** The run as a whole *)

Ltac frame_step :=
  first
    [ apply keeps_bind; [ | intro ]
    | apply keeps_ret
    | apply keeps_get_self
    | apply keeps_get_host
    | apply keeps_update_host
    | apply keeps_update_self; intro; reflexivity
    | apply keeps_emit; reflexivity
    | apply keeps_raise; solve [ exact I | discriminate | auto ]
    | match goal with
      | |- keeps _ _ _ (match ?x with _ => _ end) => destruct x
      end ].

Ltac frame := repeat frame_step.

Ltac wp_next := eapply wp_bind_run; [reflexivity | simpl; auto | simpl].

Lemma ignored_trace_at {G : Type} (mon : monitor G) (C : event -> bool) (g : G)
  (tr : list event) :
  ignores_at mon C g -> Forall (fun e => C e = true) tr ->
  accepts mon g tr /\ advance mon g tr = g.
Proof.
  intros Hi H. induction H as [|e tr He _ IH]; simpl; [auto|].
  destruct (Hi e He) as [Hok Hstep].
  unfold advance in *. simpl. rewrite Hstep. tauto.
Qed.

Lemma wp_keeps_at {G T A : Type} (mon : monitor G) (E : exn -> Prop)
  (f : DDPGAgent -> T) (C : event -> bool) (X : exn -> Prop) (m : M World A)
  (post : A -> World -> G -> Prop) (w : World) (g : G) :
  keeps f C X m -> ignores_at mon C g -> (forall e, X e -> E e) ->
  (forall a w', f (agent w') = f (agent w) -> post a w' g) ->
  wp mon E m post w g.
Proof.
  intros Hk Hi HX Hpost. destruct (Hk w) as (Ht & Hf & Hr).
  destruct (ignored_trace_at mon C g _ Hi Ht) as [Hacc Hadv].
  unfold wp. split; [assumption|]. rewrite Hadv.
  destruct (result_of (m w)); auto.
Qed.

Lemma audit_ignores_plain (k : Z) : ignores_at audit_monitor plain (k, false).
Proof.
  intros e He. destruct e; try discriminate; simpl; auto.
Qed.

Lemma select_action_run_state (state : tensor) :
  keeps run_state plain no_exn (select_action state).
Proof. unfold select_action. frame. Qed.

Lemma update_model_run_state : keeps run_state plain any_exn update_model.
Proof. unfold update_model, get_memory, optimize. frame. Qed.

Lemma learn_run_state (n : nat) (losses : list (Q * Q)) :
  keeps run_state plain any_exn (learn n losses).
Proof.
  revert losses; induction n as [|n IH]; intro losses; simpl.
  - apply keeps_ret.
  - apply keeps_bind; [apply update_model_run_state|]. intro loss. apply IH.
Qed.

Lemma time_time_run_state : keeps run_state plain no_exn time_time.
Proof. unfold time_time. frame. Qed.

Lemma write_log_run_state (i : Z) (loss : Q * Q) (score avg : Q) :
  keeps run_state plain no_exn (write_log i loss score avg).
Proof. unfold write_log, print. frame. Qed.

Lemma interim_test_run (w : World) :
  let tested := Agent_interim_test (agent w) (host w) in
  interim_test Agent_interim_test w =
    (Ok tt,
     {| agent := set_curr_state (fst tested) (agent w); host := snd tested |},
     [EvInterimTest]).
Proof.
  destruct w as [self h]. cbv zeta.
  unfold interim_test, bind, emit, get_self, get_host, update_self, update_host,
    modify.
  simpl. destruct (Agent_interim_test self h) as [s h']. reflexivity.
Qed.

(** A checkpoint and the interim test that follows it. *)
Lemma save_then_test_audit (n : Z) (w : World) (k : Z) :
  wp audit_monitor any_exn
    (save_params Agent_save_params n ;; interim_test Agent_interim_test)
    (fun _ w' g' => run_state (agent w') = run_state (agent w) /\ g' = (k, false))
    w (k, false).
Proof.
  unfold wp, bind. rewrite save_params_run, interim_test_run.
  unfold trace_of, result_of, state_of. simpl. auto.
Qed.

Lemma step_audit (action : tensor) (w : World) (k : Z) :
  wp audit_monitor any_exn (step action)
    (fun _ w' g' =>
       run_state (agent w') = run_state (agent w) /\ g' = (k + 1, false))
    w (k, false).
Proof.
  unfold wp. rewrite step_run.
  destruct (test (args (agent w))); [|destruct (memory (agent w))];
    unfold trace_of, result_of, state_of, any_exn; simpl;
    repeat split; auto.
Qed.

Lemma train_step_audit (state : tensor) (score : Q) (losses : list (Q * Q))
  (w : World) (k : Z) :
  wp audit_monitor any_exn (train_step state score losses)
    (fun _ w' g' =>
       run_state (agent w') =
         (total_step (agent w) + 1, i_episode (agent w), params (agent w),
          args (agent w)) /\
       g' = (k + 1, false))
    w (k, false).
Proof.
  unfold train_step.
  wp_next.
  apply wp_bind.
  apply wp_mono with
    (post := fun (_ : unit) w' g' => w' = w /\ g' = (k, false)).
  { destruct (render (args (agent w)) && (render_after (args (agent w)) <=? i_episode (agent w)));
      unfold wp; simpl; auto. }
  intros u w0 g0 [-> ->].
  apply wp_bind.
  eapply wp_keeps_at;
    [apply select_action_run_state | apply audit_ignores_plain | intros e []|].
  intros action w1 H1.
  apply wp_bind.
  eapply wp_mono; [apply step_audit|].
  intros [[next_state reward] done] w2 g2 [H2 ->].
  rewrite H1 in H2. clear H1.
  wp_next. wp_next.
  apply wp_bind. unfold get_memory. wp_next.
  unfold advance; simpl.
  destruct (memory (agent w2)) as [m|];
    [apply wp_ret | apply wp_raise; exact I].
  wp_next.
  apply wp_bind.
  match goal with
  | |- wp _ _ (if ?c then _ else _) _ ?w3 _ =>
      apply wp_mono with
        (post := fun (_ : list (Q * Q)) w' g' =>
                   run_state (agent w') = run_state (agent w3) /\
                   g' = (k + 1, false));
      [destruct c|]
  end.
  - eapply wp_keeps_at;
      [apply learn_run_state | apply audit_ignores_plain | intros e _; exact I|].
    auto.
  - apply wp_ret. auto.
  - intros losses' w' g' [Hs ->]. apply wp_ret.
    split; [|reflexivity]. rewrite Hs.
    unfold run_state in *. simpl. inversion H2. reflexivity.
Qed.

Lemma while_not_done_audit (fuel : nat) (state : tensor) (score : Q)
  (losses : list (Q * Q)) (w : World) (k : Z) :
  wp audit_monitor any_exn (while_not_done fuel state score losses)
    (fun _ w' g' =>
       exists n, 0 <= n /\
         run_state (agent w') =
           (total_step (agent w) + n, i_episode (agent w), params (agent w),
            args (agent w)) /\
         g' = (k + n, false))
    w (k, false).
Proof.
  revert state score losses w k.
  induction fuel as [|fuel IH]; intros state score losses w k; simpl.
  - apply wp_out_of_fuel.
  - apply wp_bind.
    eapply wp_mono; [apply train_step_audit|].
    intros [[[next_state score'] losses'] done] w' g' [Hs ->].
    destruct done.
    + apply wp_ret. exists 1. split; [lia|]. split; [assumption|reflexivity].
    + eapply wp_mono; [apply IH|].
      intros x w'' g'' (n & Hn & Hs' & ->).
      exists (1 + n). split; [lia|].
      unfold run_state in Hs. inversion Hs as [[Ht Hi Hp Ha]].
      rewrite Hs', Ht, Hi, Hp, Ha.
      replace (total_step (agent w) + 1 + n)
        with (total_step (agent w) + (1 + n)) by lia.
      replace (k + 1 + n) with (k + (1 + n)) by lia.
      split; reflexivity.
Qed.

Lemma episode_audit (fuel : nat) (i : Z) (w : World) (k : Z) :
  wp audit_monitor any_exn (episode Agent_save_params Agent_interim_test fuel i)
    (fun _ w' g' =>
       exists n, 0 <= n /\
         run_state (agent w') =
           (total_step (agent w) + n, i, params (agent w), args (agent w)) /\
         g' = (k + n, false) /\
         save_period (args (agent w)) <> 0)
    w (k, false).
Proof.
  unfold episode.
  wp_next. wp_next. wp_next.
  destruct (env_reset (env (host w))) as [state e'].
  wp_next. wp_next.
  apply wp_bind.
  eapply wp_keeps_at;
    [apply time_time_run_state | apply audit_ignores_plain | intros e []|].
  intros t_begin w1 H1. unfold run_state at 2 in H1. simpl in H1.
  apply wp_bind.
  eapply wp_mono; [apply while_not_done_audit|].
  intros [score losses] w2 g2 (n & Hn & H2 & ->).
  apply wp_bind.
  eapply wp_keeps_at;
    [apply time_time_run_state | apply audit_ignores_plain | intros e []|].
  intros t_end w3 H3.
  wp_next.
  apply wp_bind.
  apply wp_mono with
    (post := fun (_ : unit) w' g' =>
               run_state (agent w') = run_state (agent w3) /\
               g' = (k + n, false)).
  { destruct losses as [|l ls]; [apply wp_ret; auto|].
    eapply wp_keeps_at;
      [apply write_log_run_state | apply audit_ignores_plain | intros ? []|].
    auto. }
  intros u w4 g4 [H4 ->].
  assert (run_state (agent w3) =
            (total_step (agent w) + n, i, params (agent w), args (agent w)))
    as H3'.
  { rewrite H3, H2. unfold run_state in H1. congruence. }
  assert (args (agent w3) = args (agent w)) as Ha3
      by (unfold run_state in H3'; congruence).
  rewrite Ha3.
  destruct (save_period (args (agent w)) =? 0) eqn:Ez; [apply wp_raise; exact I|].
  apply Z.eqb_neq in Ez.
  match goal with
  | |- wp _ _ (if ?c then _ else _) _ _ _ => destruct c
  end.
  - eapply wp_mono; [apply save_then_test_audit|].
    intros u5 w5 g5 [H5 ->]. exists n.
    split; [assumption|]. split; [congruence|]. split; [reflexivity|assumption].
  - apply wp_ret. exists n.
    split; [assumption|]. split; [congruence|]. split; [reflexivity|assumption].
Qed.

Lemma last_cons_default {A : Type} (x d : A) (xs : list A) :
  last (x :: xs) d = last xs x.
Proof.
  revert x d; induction xs as [|y ys IH]; intros x d; [reflexivity|].
  change (last (x :: y :: ys) d) with (last (y :: ys) d).
  rewrite (IH y d), (IH y x). reflexivity.
Qed.

Lemma episodes_audit (fuel : nat) (xs : list Z) (w : World) (k : Z) :
  wp audit_monitor any_exn
    (for_each xs (episode Agent_save_params Agent_interim_test fuel))
    (fun _ w' g' =>
       exists n, 0 <= n /\
         run_state (agent w') =
           (total_step (agent w) + n, last xs (i_episode (agent w)),
            params (agent w), args (agent w)) /\
         g' = (k + n, false) /\
         (xs <> [] -> save_period (args (agent w)) <> 0))
    w (k, false).
Proof.
  revert w k; induction xs as [|x xs IH]; intros w k.
  - apply wp_ret. exists 0. rewrite !Z.add_0_r.
    split; [lia|]. split; [reflexivity|]. split; [reflexivity|].
    intro H. now contradiction H.
  - cbn [for_each]. apply wp_bind.
    eapply wp_mono; [apply episode_audit|].
    intros u w1 g1 (n & Hn & H1 & -> & Hsave).
    eapply wp_mono; [apply IH|].
    intros u2 w2 g2 (n2 & Hn2 & H2 & -> & _).
    exists (n + n2). split; [lia|].
    rewrite last_cons_default.
    replace (total_step (agent w) + (n + n2))
      with (total_step (agent w) + n + n2) by lia.
    replace (k + (n + n2)) with (k + n + n2) by lia.
    split; [|split; [reflexivity|intros _; assumption]].
    rewrite H2. unfold run_state in H1. congruence.
Qed.

Lemma train_audit (fuel : nat) (w : World) (k : Z) :
  wp audit_monitor any_exn (train Agent_save_params Agent_interim_test fuel)
    (fun _ w' g' =>
       exists n, 0 <= n /\
         run_state (agent w') =
           (total_step (agent w) + n,
            last (range 1 (episode_num (args (agent w)) + 1)) (i_episode (agent w)),
            params (agent w), args (agent w)) /\
         g' = (k + n, false) /\
         (range 1 (episode_num (args (agent w)) + 1) <> [] ->
          save_period (args (agent w)) <> 0))
    w (k, false).
Proof.
  unfold train, pretrain.
  wp_next.
  apply wp_bind.
  apply wp_mono with
    (post := fun (_ : unit) w' g' => w' = w /\ g' = (k, false)).
  { destruct (log (args (agent w))); unfold wp; simpl; auto. }
  intros u w0 g0 [-> ->].
  wp_next.
  apply wp_bind.
  eapply wp_mono; [apply episodes_audit|].
  intros u1 w1 g1 (n & Hn & H1 & -> & Hsave).
  wp_next. wp_next.
  eapply wp_mono; [apply save_then_test_audit|].
  intros u2 w2 g2 [H2 ->]. exists n.
  split; [assumption|]. split; [congruence|]. split; [reflexivity|assumption].
Qed.

Lemma audit_counts_env_steps (tr : list event) (k : Z) (b : bool) :
  fst (advance audit_monitor (k, b) tr) = k + env_steps tr.
Proof.
  unfold advance, env_steps.
  revert k b; induction tr as [|e tr IH]; intros k b; simpl; [lia|].
  rewrite IH. simpl. destruct (is_env_step e); simpl length; lia.
Qed.

Lemma audit_last_event (tr : list event) (e : event) (g : Z * bool) :
  snd (advance audit_monitor g (tr ++ [e])) = is_save e.
Proof.
  unfold advance. rewrite fold_left_app. reflexivity.
Qed.

Lemma range_empty (lo hi : Z) : hi <= lo -> range lo hi = [].
Proof.
  intro H. unfold range. replace (Z.to_nat (hi - lo)) with O by lia. reflexivity.
Qed.

Lemma range_last (lo hi d : Z) : lo < hi -> last (range lo hi) d = hi - 1.
Proof.
  intro H. unfold range.
  destruct (Z.to_nat (hi - lo)) as [|n] eqn:En; [lia|].
  rewrite seq_S, map_app. cbn [map]. rewrite last_last. lia.
Qed.

Lemma range_nonempty (lo hi : Z) : lo < hi -> range lo hi <> [].
Proof.
  intro H. unfold range.
  destruct (Z.to_nat (hi - lo)) as [|n] eqn:En; [lia|]. discriminate.
Qed.

(** X12.  When [train] returns, [total_step] has grown by the number of
    calls of [env.step] it made: the counter is never reset between
    episodes, and the hyper-parameters and the arguments are as they
    were. *)
Theorem X12_total_step_counts_environment_steps (fuel : nat) (w : World)
  (x : unit) :
  let r := train Agent_save_params Agent_interim_test fuel w in
  result_of r = Ok x ->
  total_step (agent (state_of r)) = total_step (agent w) + env_steps (trace_of r) /\
  params (agent (state_of r)) = params (agent w) /\
  args (agent (state_of r)) = args (agent w).
Proof.
  intros r Hx. subst r.
  destruct (train_audit fuel w 0) as [_ Hr]. rewrite Hx in Hr.
  destruct Hr as (n & Hn & Hs & Hg & _).
  assert (n = env_steps (trace_of (train Agent_save_params Agent_interim_test fuel w)))
    as <-.
  { pose proof (audit_counts_env_steps
                  (trace_of (train Agent_save_params Agent_interim_test fuel w))
                  0 false) as Hc.
    rewrite Hg in Hc. simpl in Hc. lia. }
  unfold run_state in Hs. injection Hs as Ht Hi Hp Ha. auto.
Qed.

(** X13.  In every run of [train], complete or not, a checkpoint is
    followed at once by an interim test and an interim test comes only
    right after a checkpoint; a run that returns does not end on a
    checkpoint. *)
Theorem X13_interim_test_follows_checkpoint (fuel : nat) (w : World) :
  let r := train Agent_save_params Agent_interim_test fuel w in
  (forall before n e after,
      trace_of r = before ++ EvSaveParams n :: e :: after -> e = EvInterimTest) /\
  (forall before after,
      trace_of r = before ++ EvInterimTest :: after ->
      exists before' n, before = before' ++ [EvSaveParams n]) /\
  (forall x before n,
      result_of r = Ok x -> trace_of r <> before ++ [EvSaveParams n]).
Proof.
  intro r. subst r.
  destruct (train_audit fuel w 0) as [Hacc Hr].
  split; [|split].
  - intros before n e after Htr. rewrite Htr in Hacc.
    change (before ++ EvSaveParams n :: e :: after)
      with (before ++ [EvSaveParams n] ++ e :: after) in Hacc.
    rewrite app_assoc in Hacc. apply accepts_app in Hacc.
    destruct Hacc as [_ [He _]]. simpl in He.
    rewrite audit_last_event in He. destruct e; try discriminate. reflexivity.
  - intros before after Htr. rewrite Htr in Hacc.
    apply accepts_app in Hacc. destruct Hacc as [_ [He _]]. simpl in He.
    destruct (exists_last (l := before)) as (before' & e & ->).
    + intros ->. discriminate.
    + rewrite audit_last_event in He. destruct e; try discriminate. eauto.
  - intros x before n Hx Htr. rewrite Hx in Hr.
    destruct Hr as (m & _ & _ & Hg & _).
    rewrite Htr in Hg.
    pose proof (audit_last_event before (EvSaveParams n) (0, false)) as Hl.
    rewrite Hg in Hl. discriminate.
Qed.

(** X14.  With [save_period = 0] and at least one episode to run, [train]
    never returns: the remainder [i_episode % save_period] of the first
    episode fails. *)
Theorem X14_zero_save_period_never_completes (fuel : nat) (w : World) (x : unit) :
  save_period (args (agent w)) = 0 ->
  1 <= episode_num (args (agent w)) ->
  result_of (train Agent_save_params Agent_interim_test fuel w) <> Ok x.
Proof.
  intros Hzero Hnum Hx.
  destruct (train_audit fuel w 0) as [_ Hr]. rewrite Hx in Hr.
  destruct Hr as (n & _ & _ & _ & Hsave).
  apply Hsave; [|assumption]. apply range_nonempty. lia.
Qed.

Lemma bind_run_ok {S A B : Type} (m : M S A) (k : A -> M S B) (s s1 : S)
  (a : A) (t1 : list event) :
  m s = (Ok a, s1, t1) ->
  bind m k s = (result_of (k a s1), state_of (k a s1), t1 ++ trace_of (k a s1)).
Proof.
  intro Em. unfold bind. rewrite Em.
  destruct (k a s1) as [[r s2] t2]. reflexivity.
Qed.

Lemma bind_run_raise {S A B : Type} (m : M S A) (k : A -> M S B) (s s1 : S)
  (e : exn) (t1 : list event) :
  m s = (Raise e, s1, t1) -> bind m k s = (Raise e, s1, t1).
Proof. intro Em. unfold bind. rewrite Em. reflexivity. Qed.

(** The end of [train]. *)
Lemma train_tail_run (w : World) :
  let saved :=
    Agent_save_params (checkpoint_of (agent w)) (i_episode (agent w)) (host w) in
  let tested := Agent_interim_test (agent w) saved in
  (emit EvEnvClose ;;
   self <- get_self ;;
   save_params Agent_save_params (i_episode self) ;;
   interim_test Agent_interim_test) w =
    (Ok tt,
     {| agent := set_curr_state (fst tested) (agent w); host := snd tested |},
     [EvEnvClose; EvSaveParams (i_episode (agent w)); EvInterimTest]).
Proof.
  cbv zeta.
  erewrite bind_run_ok by reflexivity.
  erewrite bind_run_ok by reflexivity.
  erewrite bind_run_ok by apply save_params_run.
  rewrite interim_test_run. reflexivity.
Qed.

Lemma bind_ok_inv {S A B : Type} (m : M S A) (k : A -> M S B) (s : S) (b : B) :
  result_of (bind m k s) = Ok b ->
  exists a s1 t1,
    m s = (Ok a, s1, t1) /\
    result_of (k a s1) = Ok b /\
    state_of (bind m k s) = state_of (k a s1) /\
    trace_of (bind m k s) = t1 ++ trace_of (k a s1).
Proof.
  unfold bind. destruct (m s) as [[[a| |] s1] t1]; try discriminate.
  destruct (k a s1) as [[r s2] t2] eqn:Ek.
  unfold result_of, state_of, trace_of. simpl. intros ->.
  exists a, s1, t1. rewrite Ek. repeat split; reflexivity.
Qed.

(** X15.  When [train] returns, [i_episode] is the number of episodes
    asked for (or what it was if none was), and the run has ended by
    closing the environment, writing a checkpoint under that episode number
    and running an interim test, in this order. *)
Theorem X15_train_ends_with_final_checkpoint (fuel : nat) (w : World) (x : unit) :
  let r := train Agent_save_params Agent_interim_test fuel w in
  result_of r = Ok x ->
  i_episode (agent (state_of r)) =
    (if 1 <=? episode_num (args (agent w))
     then episode_num (args (agent w)) else i_episode (agent w)) /\
  exists before,
    trace_of r =
      before ++ [EvEnvClose; EvSaveParams (i_episode (agent (state_of r)));
                 EvInterimTest].
Proof.
  intros r Hx. subst r. split.
  - destruct (train_audit fuel w 0) as [_ Hr]. rewrite Hx in Hr.
    destruct Hr as (n & _ & Hs & _).
    unfold run_state in Hs. injection Hs as Ht Hi Hp Ha.
    rewrite Hi.
    destruct (1 <=? episode_num (args (agent w))) eqn:En.
    + apply Z.leb_le in En. rewrite range_last by lia. lia.
    + apply Z.leb_gt in En. rewrite range_empty by lia. reflexivity.
  - unfold train in *.
    apply bind_ok_inv in Hx. destruct Hx as (a1 & s1 & t1 & _ & Hx & -> & ->).
    apply bind_ok_inv in Hx. destruct Hx as (a2 & s2 & t2 & _ & Hx & -> & ->).
    apply bind_ok_inv in Hx. destruct Hx as (a3 & s3 & t3 & _ & Hx & -> & ->).
    apply bind_ok_inv in Hx. destruct Hx as (a4 & s4 & t4 & _ & Hx & -> & ->).
    exists (t1 ++ t2 ++ t3 ++ t4).
    rewrite <- !app_assoc. do 4 f_equal.
    rewrite train_tail_run. reflexivity.
Qed.

(** X16.  With no episode to run ([episode_num <= 0]) [train] needs no
    fuel and never resets or steps the environment: it closes it, writes a
    checkpoint under the current [i_episode] and runs one interim test. *)
Theorem X16_train_without_episodes (fuel : nat) (w : World) :
  episode_num (args (agent w)) <= 0 ->
  let r := train Agent_save_params Agent_interim_test fuel w in
  result_of r = Ok tt /\
  trace_of r =
    (if log (args (agent w)) then [EvSetWandb] else []) ++
    [EvEnvClose; EvSaveParams (i_episode (agent w)); EvInterimTest] /\
  run_state (agent (state_of r)) = run_state (agent w) /\
  memory (agent (state_of r)) = memory (agent w).
Proof.
  intros Hnum r. subst r.
  unfold train, pretrain.
  erewrite bind_run_ok by reflexivity.
  rewrite range_empty by lia.
  destruct (log (args (agent w)));
    erewrite bind_run_ok by reflexivity;
    erewrite bind_run_ok by reflexivity;
    erewrite bind_run_ok by reflexivity;
    rewrite train_tail_run;
    unfold result_of, trace_of, state_of; simpl; repeat split; reflexivity.
Qed.

Lemma range_cons (lo hi : Z) : lo < hi -> range lo hi = lo :: range (lo + 1) hi.
Proof.
  intro H. unfold range.
  replace (Z.to_nat (hi - lo)) with (S (Z.to_nat (hi - (lo + 1)))) by lia.
  cbn [seq map]. rewrite <- seq_shift, map_map. f_equal; [lia|].
  apply map_ext. intro i. lia.
Qed.

Lemma time_time_run (w : World) :
  time_time w =
    (Ok (fst (draw (rng (host w)))),
     {| agent := agent w; host := set_rng (snd (draw (rng (host w)))) (host w) |},
     []).
Proof.
  destruct w as [self h]. unfold time_time, bind, get_host, update_host, modify, ret.
  simpl. destruct (draw (rng h)) as [t o']. reflexivity.
Qed.

Lemma train_step_in_test_mode (state : tensor) (score : Q)
  (losses : list (Q * Q)) (w : World) :
  test (args (agent w)) = true ->
  memory (agent w) = None ->
  exists w' tr,
    train_step state score losses w = (Raise (AttributeError "memory"), w', tr) /\
    env_steps tr = 1 /\
    ~ In EvNewReplayBuffer tr.
Proof.
  intros Htest Hmem. unfold train_step.
  erewrite bind_run_ok by reflexivity.
  destruct (env_step (env (host w)) (forward (actor (agent w)) state))
    as [[[next_state reward] done] e'] eqn:Eenv.
  assert (forall w0 : World,
             agent w0 = set_curr_state state (agent w) -> host w0 = host w ->
             step (forward (actor (agent w)) state) w0 =
               (Ok (next_state, reward, done),
                {| agent := agent w0; host := set_env e' (host w0) |},
                [EvEnvStep])) as Estep.
  { intros w0 Ha Hh. rewrite step_run, Ha, Hh. simpl. rewrite Htest, Eenv.
    reflexivity. }
  assert (forall w0 : World, memory (agent w0) = None ->
             get_memory w0 = (Raise (AttributeError "memory"), w0, [])) as Eget.
  { intros w0 Hm. unfold get_memory, bind, get_self, raise. simpl.
    rewrite Hm. reflexivity. }
  destruct (render (args (agent w)) && (render_after (args (agent w)) <=? i_episode (agent w)));
    (erewrite bind_run_ok by reflexivity);
    (erewrite bind_run_ok by (apply select_action_test_run; exact Htest));
    (erewrite bind_run_ok by (apply Estep; reflexivity));
    cbn beta iota;
    (erewrite bind_run_ok by reflexivity);
    (erewrite bind_run_ok by reflexivity);
    (erewrite bind_run_raise by (apply Eget; exact Hmem));
    do 2 eexists; (split; [reflexivity|]);
    unfold trace_of; simpl; (split; [reflexivity|]); intuition discriminate.
Qed.

(** X17.  [train] on an agent built for a test run (no buffer) with at
    least one episode to run raises [AttributeError] for [memory] in the
    first iteration of its loop, after one step of the environment; it
    creates no buffer. *)
Theorem X17_train_in_test_mode_fails (fuel : nat) (w : World) :
  test (args (agent w)) = true ->
  memory (agent w) = None ->
  1 <= episode_num (args (agent w)) ->
  let r := train Agent_save_params Agent_interim_test (S fuel) w in
  result_of r = Raise (AttributeError "memory") /\
  env_steps (trace_of r) = 1 /\
  ~ In EvNewReplayBuffer (trace_of r).
Proof.
  intros Htest Hmem Hnum. cbv zeta.
  unfold train, pretrain.
  erewrite bind_run_ok by reflexivity.
  rewrite range_cons by lia. cbn [for_each].
  destruct (env_reset (env (host w))) as [state e0] eqn:Ereset.
  assert (forall w0 : World, host w0 = host w -> agent w0 = agent w ->
            exists w' tr,
              episode Agent_save_params Agent_interim_test (S fuel) 1 w0 =
                (Raise (AttributeError "memory"), w', tr) /\
              env_steps tr = 1 /\ ~ In EvNewReplayBuffer tr) as Eep.
  { intros w0 Hh Ha. unfold episode.
    erewrite bind_run_ok by reflexivity.
    erewrite bind_run_ok by reflexivity.
    erewrite bind_run_ok by reflexivity.
    cbn [host agent]. rewrite Hh, Ereset.
    erewrite bind_run_ok by reflexivity.
    erewrite bind_run_ok by reflexivity.
    erewrite bind_run_ok by apply time_time_run.
    cbn [while_not_done agent host].
    match goal with
    | |- context [bind (bind (train_step ?s ?sc ?l) _) _ ?w1] =>
        destruct (train_step_in_test_mode s sc l w1) as (w' & tr & E & Hn & Hb);
        [cbn; rewrite Ha; exact Htest | cbn; rewrite Ha; exact Hmem |]
    end.
    erewrite bind_run_raise by (erewrite bind_run_raise by exact E; reflexivity).
    do 2 eexists. split; [reflexivity|].
    unfold env_steps in *. cbn. split; [exact Hn|].
    intros [H|H]; [discriminate|]. apply Hb. exact H. }
  destruct (log (args (agent w)));
    (erewrite bind_run_ok by reflexivity);
    (erewrite bind_run_ok by reflexivity);
    cbn beta iota;
    match goal with
    | |- context [bind (bind (episode Agent_save_params Agent_interim_test
                                (S fuel) 1) _) _ ?w0] =>
        destruct (Eep w0 eq_refl eq_refl) as (w' & tr & E & Hn & Hb)
    end;
    (erewrite bind_run_raise by (erewrite bind_run_raise by exact E; reflexivity));
    unfold result_of, trace_of; cbn; (split; [reflexivity|]);
    unfold env_steps in *; cbn; (split; [exact Hn|]).
  - intros [H|H]; [discriminate|]. apply Hb. exact H.
  - exact Hb.
Qed.

End MoreProperties.

(** * The small instance *)

Import TimeLimit.

(** C2.  The environment is capped at [max_episode_steps = 3] steps and has
    no terminal state, so its one episode ends by truncation alone, on the
    third step.  [train] stores that step with the flag set: the truncation
    check saw [episode_step = 2], not 3. *)
Theorem C2_truncation_stored_as_terminal :
  option_map
    (fun r => (result_of r, stored_dones (state_of r),
               filter is_check (trace_of r)))
    (run (train save evaluate 10) (world0 false 10)) =
  Some (Ok tt, [false; false; true],
        [EvTruncationCheck 0 3 false false; EvTruncationCheck 1 3 false false;
         EvTruncationCheck 2 3 true true]).
Proof. vm_compute. reflexivity. Qed.

Lemma clip1_range (lo hi x : Q) : (lo <= hi -> lo <= clip1 lo hi x <= hi)%Q.
Proof.
  intro H. unfold clip1. split.
  - apply Q.min_glb; [assumption|apply Q.le_max_l].
  - apply Q.le_min_l.
Qed.

Lemma world1_memory : memory (agent (world1 false)) = Some memory1.
Proof. reflexivity. Qed.

Lemma memory1_enough : rb_batch_size memory1 <= ReplayBuffer_len memory1.
Proof. vm_compute. discriminate. Qed.

Lemma world1_wf : wf (agent (world1 false)).
Proof. intros m Hm. inversion Hm. reflexivity. Qed.

Lemma C1_witness :
  memory (agent (world1 false)) = Some memory1 /\
  rb_batch_size memory1 <= ReplayBuffer_len memory1 /\
  length (curr_returns_of (agent (world1 false))
            (stack (fst (sampled memory1 (rng (host (world1 false))))))) =
    length (fst (sampled memory1 (rng (host (world1 false))))).
Proof.
  exact (conj world1_memory (conj memory1_enough
           (proj1 (proj2 (C1_td_target_masks_terminal (world1 false) memory1
                            world1_memory memory1_enough))))).
Defined.

Lemma C3_witness :
  memory (agent (world1 false)) = Some memory1 /\
  rb_batch_size memory1 <= ReplayBuffer_len memory1 /\
  trace_of (update_model (world1 false)) =
    [EvMemorySample 3 2; EvOptimStep Critic 1; EvOptimStep Actor (1 # 2);
     EvSoftUpdate ActorTarget; EvSoftUpdate CriticTarget].
Proof.
  exact (conj world1_memory (conj memory1_enough
           (proj1 (proj2 (C3_update_order (world1 false) memory1
                            world1_memory memory1_enough))))).
Defined.

Lemma C4_witness :
  memory (agent (world1 false)) = Some memory1 /\
  rb_batch_size memory1 <= ReplayBuffer_len memory1 /\
  filter (is_optim_step Actor) (trace_of (update_model (world1 false))) =
    [EvOptimStep Actor (1 # 2)].
Proof.
  exact (conj world1_memory (conj memory1_enough
           (proj1 (proj2 (proj2 (proj2
              (C4_actor_update (world1 false) memory1
                 world1_memory memory1_enough))))))).
Defined.

Lemma C5_witness :
  wf (agent (world1 false)) /\
  Forall sample_ok (trace_of (train save evaluate 10 (world1 false))) /\
  result_of (train save evaluate 10 (world1 false)) <> Raise ContractViolation.
Proof.
  exact (conj world1_wf
           (proj1 (C5_updates_guarded save evaluate (world1 false) world1_wf) 10%nat)).
Defined.

(** C6 as stated fails: a test run builds the target copies too. *)
Lemma C6_counterexample :
  ~ (test (args0 true) = true ->
     (forall self, result_of (construct true 2) = Ok self -> memory self = None) /\
     only_live_networks (trace_of (construct true 2))).
Proof.
  intro H. destruct (H eq_refl) as [_ [Htarget _]]. apply Htarget.
  vm_compute. right. left. reflexivity.
Qed.

Lemma C6_witness :
  test (args0 true) = true /\
  trace_of (construct true 2) = network_creation /\
  ~ In EvNewReplayBuffer (trace_of (construct true 2)).
Proof.
  exact (conj eq_refl
           (conj (proj1 (C6_test_run_skips_buffer_only (args0 true) (params0 2)
                           network_cfg0 optim_cfg0 noise_cfg0 host0 eq_refl))
                 (proj1 (proj2 (C6_test_run_skips_buffer_only (args0 true)
                           (params0 2) network_cfg0 optim_cfg0 noise_cfg0 host0
                           eq_refl))))).
Defined.

Lemma tanh_stand_in_range : forall x : Q, (-1 <= tanh x <= 1)%Q.
Proof. intro x. apply clip1_range. discriminate. Qed.

Lemma C7_witness :
  test (args (agent (world1 true))) = true /\
  output_activation (actor (agent (world1 true))) = Tanh /\
  result_of (select_action [2%Q] (world1 true)) =
    Ok (forward (actor (agent (world1 true))) [2%Q]) /\
  trace_of (select_action [2%Q] (world1 true)) = [].
Proof.
  exact (conj eq_refl (conj eq_refl
           (conj (proj1 (C7_select_action_test_mode [2%Q] (world1 true)
                           eq_refl eq_refl tanh_stand_in_range))
                 (proj1 (proj2 (C7_select_action_test_mode [2%Q] (world1 true)
                           eq_refl eq_refl tanh_stand_in_range)))))).
Defined.

Lemma C8_witness :
  os_path_exists "missing.pt" (host (world1 false)) = false /\
  result_of (load_params "missing.pt" (world1 false)) = Ok tt /\
  agent (state_of (load_params "missing.pt" (world1 false))) = agent (world1 false).
Proof.
  exact (conj eq_refl
           (conj (proj1 (C8_load_missing_path "missing.pt" (world1 false) eq_refl))
                 (proj1 (proj2 (proj2
                    (C8_load_missing_path "missing.pt" (world1 false) eq_refl)))))).
Defined.

(** ** Instances of the further properties *)

Lemma X1_witness :
  test (args (agent (world2 (args1 1 2 None) 0))) = false /\
  total_step (agent (world2 (args1 1 2 None) 0)) <
    initial_random_action (agent (world2 (args1 1 2 None) 0)) /\
  result_of (select_action [1%Q] (world2 (args1 1 2 None) 0)) = Ok [0%Q].
Proof.
  split; [reflexivity|]. split; [reflexivity|].
  exact (proj1 (X1_select_action_warm_up [1%Q] (world2 (args1 1 2 None) 0)
                  eq_refl eq_refl)).
Defined.

Lemma X2_witness :
  test (args (agent (world2 (args1 1 2 None) 5))) = false /\
  initial_random_action (agent (world2 (args1 1 2 None) 5)) <=
    total_step (agent (world2 (args1 1 2 None) 5)) /\
  exists action,
    result_of (select_action [1%Q] (world2 (args1 1 2 None) 5)) = Ok action /\
    Forall (fun x => -1 <= x <= 1)%Q action.
Proof.
  assert (initial_random_action (agent (world2 (args1 1 2 None) 5)) <=
            total_step (agent (world2 (args1 1 2 None) 5))) as Hlate
      by (vm_compute; discriminate).
  split; [reflexivity|]. split; [exact Hlate|].
  destruct (X2_select_action_explores_within_bounds [1%Q]
              (world2 (args1 1 2 None) 5) eq_refl Hlate)
    as (action & Hr & _ & Hb & _).
  exists action. split; assumption.
Defined.

Lemma X5_witness :
  test (args (agent (world1 false))) = false /\
  memory (agent (world1 false)) = Some memory1 /\
  exists action next_state reward done flag,
    result_of ((action <- select_action [2%Q] ;; step action)%monad (world1 false)) =
      Ok (next_state, reward, done) /\
    memory (agent (state_of
                     ((action <- select_action [2%Q] ;; step action)%monad
                        (world1 false)))) =
      Some (ReplayBuffer_add
              {| t_state := [2%Q]; t_action := action; t_reward := reward;
                 t_next_state := next_state; t_done := flag |} memory1).
Proof.
  split; [reflexivity|]. split; [reflexivity|].
  destruct (X5_transition_pairs_state_and_action [2%Q] (world1 false) memory1
              eq_refl eq_refl)
    as (action & next_state & reward & done & flag & _ & Hr & Hm & _).
  exists action, next_state, reward, done, flag. split; assumption.
Defined.

Lemma X6_witness :
  result_of (update_model (world1 true)) = Raise (AttributeError "memory") /\
  state_of (update_model (world1 true)) = world1 true.
Proof.
  split; [reflexivity|].
  exact (proj1 (X6_update_model_fails_before_learning (world1 true)
                  (AttributeError "memory") eq_refl)).
Defined.

Lemma X8_witness :
  (forall ckpt h, lookup "checkpoint" (disk (save ckpt 1 h)) = Some ckpt) /\
  disk (host world3) = disk (host (state_of (save_params save 1 (world1 false)))) /\
  same_sizes (agent (world1 false)) (agent world3) /\
  weights (actor (agent (state_of (load_params "checkpoint" world3)))) =
    [1%Q; 2%Q].
Proof.
  assert (forall ckpt h, lookup "checkpoint" (disk (save ckpt 1 h)) = Some ckpt)
    as Hwrites by (intros ckpt h; reflexivity).
  assert (same_sizes (agent (world1 false)) (agent world3)) as Hsizes
      by (repeat split; reflexivity).
  split; [exact Hwrites|]. split; [reflexivity|]. split; [exact Hsizes|].
  exact (proj1 (proj2 (X8_checkpoint_round_trip save "checkpoint" 1 (world1 false)
                         world3 Hwrites eq_refl Hsizes))).
Defined.

Lemma X9_witness :
  lookup "partial" (disk (host world4)) =
    Some [("actor_state_dict", StateDict [3%Q; 4%Q])]%string /\
  result_of (load_params "partial" world4) =
    Raise (KeyError "actor_target_state_dict") /\
  weights (actor (agent (state_of (load_params "partial" world4)))) = [3%Q; 4%Q].
Proof.
  split; [reflexivity|].
  destruct (X9_load_incomplete_checkpoint "partial" world4
              [("actor_state_dict", StateDict [3%Q; 4%Q])]%string [3%Q; 4%Q]
              eq_refl eq_refl eq_refl eq_refl) as (Hr & Ha & _).
  split; [exact Hr|]. rewrite Ha. reflexivity.
Defined.

Lemma X10_witness :
  match load_from (args0 false) with
  | Some path => os_path_exists path host0 = false
  | None => True
  end /\
  exists self,
    result_of (construct false 2) = Ok self /\
    memory self = Some (ReplayBuffer_new 5 2).
Proof.
  split; [exact I|].
  destruct (X10_construction_without_checkpoint (args0 false) (params0 2)
              network_cfg0 optim_cfg0 noise_cfg0 host0 I)
    as (self & Hr & _ & _ & _ & _ & _ & _ & _ & Hm).
  exists self. split; [exact Hr|exact Hm].
Defined.

Lemma X11_witness :
  load_from (args1 1 1 (Some "checkpoint"%string)) = Some "checkpoint"%string /\
  lookup "checkpoint" (disk (save (checkpoint_of (agent1 false)) 1 host0)) =
    Some (checkpoint_of (agent1 false)) /\
  exists self,
    result_of (DDPGAgent_init (args1 1 1 (Some "checkpoint"%string)) (params0 2)
                 network_cfg0 optim_cfg0 noise_cfg0
                 (save (checkpoint_of (agent1 false)) 1 host0)) = Ok self /\
    weights (critic self) = weights (critic (agent1 false)).
Proof.
  split; [reflexivity|]. split; [reflexivity|].
  destruct (X11_construction_resumes_from_checkpoint
              (args1 1 1 (Some "checkpoint"%string)) (params0 2)
              network_cfg0 optim_cfg0 noise_cfg0
              (save (checkpoint_of (agent1 false)) 1 host0)
              "checkpoint" (agent1 false)
              eq_refl eq_refl eq_refl eq_refl eq_refl eq_refl)
    as (self & Hr & _ & _ & Hc & _).
  exists self. split; [exact Hr|exact Hc].
Defined.

Lemma train_world1_returns :
  result_of (train save evaluate 10 (world1 false)) = Ok tt.
Proof. vm_compute. reflexivity. Qed.

Lemma X12_witness :
  result_of (train save evaluate 10 (world1 false)) = Ok tt /\
  total_step (agent (state_of (train save evaluate 10 (world1 false)))) =
    total_step (agent (world1 false)) +
    env_steps (trace_of (train save evaluate 10 (world1 false))).
Proof.
  split; [exact train_world1_returns|].
  exact (proj1 (X12_total_step_counts_environment_steps save evaluate 10
                  (world1 false) tt train_world1_returns)).
Defined.

Lemma X14_witness :
  save_period (args (agent (world2 (args1 0 1 None) 5))) = 0 /\
  1 <= episode_num (args (agent (world2 (args1 0 1 None) 5))) /\
  result_of (train save evaluate 10 (world2 (args1 0 1 None) 5)) <> Ok tt.
Proof.
  assert (1 <= episode_num (args (agent (world2 (args1 0 1 None) 5)))) as Hnum
      by (vm_compute; discriminate).
  split; [reflexivity|]. split; [exact Hnum|].
  exact (X14_zero_save_period_never_completes save evaluate 10
           (world2 (args1 0 1 None) 5) tt eq_refl Hnum).
Defined.

Lemma X15_witness :
  result_of (train save evaluate 10 (world1 false)) = Ok tt /\
  i_episode (agent (state_of (train save evaluate 10 (world1 false)))) = 1.
Proof.
  split; [exact train_world1_returns|].
  exact (proj1 (X15_train_ends_with_final_checkpoint save evaluate 10
                  (world1 false) tt train_world1_returns)).
Defined.

Lemma X16_witness :
  episode_num (args (agent (world2 (args1 1 0 None) 5))) <= 0 /\
  result_of (train save evaluate 0 (world2 (args1 1 0 None) 5)) = Ok tt.
Proof.
  assert (episode_num (args (agent (world2 (args1 1 0 None) 5))) <= 0) as Hnum
      by (vm_compute; discriminate).
  split; [exact Hnum|].
  exact (proj1 (X16_train_without_episodes save evaluate 0
                  (world2 (args1 1 0 None) 5) Hnum)).
Defined.

Lemma X17_witness :
  test (args (agent (world1 true))) = true /\
  memory (agent (world1 true)) = None /\
  1 <= episode_num (args (agent (world1 true))) /\
  result_of (train save evaluate 1 (world1 true)) = Raise (AttributeError "memory").
Proof.
  assert (1 <= episode_num (args (agent (world1 true)))) as Hnum
      by (vm_compute; discriminate).
  split; [reflexivity|]. split; [reflexivity|]. split; [exact Hnum|].
  exact (proj1 (X17_train_in_test_mode_fails save evaluate 0 (world1 true)
                  eq_refl eq_refl Hnum)).
Defined.
